(** * ClimaBill: the client session, the requests it sends, and tenant scoping

    A shallow embedding of the browser client of ClimaBill (the React
    components and the authentication context) and of the request authorizer
    that the specification describes for the server side.

    - [Js]: JavaScript numbers (IEEE 754 binary64) and the built-in
      functions the handlers call;
    - [Host]: what the handlers take from the browser (JSON codec, clock,
      backend address);
    - [AuthContext], [App], [Auth], [Navbar], [EmissionsTracker],
      [FinancialImpact], [Dashboard] and the other views: the handlers, as
      state-passing computations over the browser state that record the HTTP
      requests they send;
    - [Client]: the page as a transition system over events;
    - [Server]: the token verifier, the request authorizer and the
      tenant-scoped domain services;
    - [RefHost], [Scenario]: one concrete host and a session on it;
    - [Spec]: the properties as the specification words them;
    - then the lemmas and theorems. *)

From Stdlib Require Import ZArith String Ascii List Bool Lia.
From Stdlib Require Import Floats.SpecFloat.
From stdpp Require Import base option gmap strings list pretty.

Set Warnings "-register-all".

Local Open Scope string_scope.
Local Open Scope Z_scope.

(* ===================================================================== *)
(** * JavaScript numbers and built-ins *)
(* ===================================================================== *)

Module Js.

(** A JavaScript Number is an IEEE 754 binary64 value. *)
Definition number : Type := spec_float.

Definition prec : Z := 53.
Definition emax : Z := 1024.

Definition NaN : number := S754_nan.
Definition Infinity : number := S754_infinity false.
Definition pos_zero : number := S754_zero false.

(** The Number value of a mathematical integer (round to nearest, ties to even). *)
Definition of_Z (z : Z) : number := binary_normalize prec emax z 0 false.

(** [x / y] and [x * y] on Numbers. *)
Definition div (x y : number) : number := SFdiv prec emax x y.
Definition mul (x y : number) : number := SFmul prec emax x y.


Definition isNaN (x : number) : bool :=
  match x with S754_nan => true | _ => false end.

Definition isZero (x : number) : bool :=
  match x with S754_zero _ => true | _ => false end.

(** An upper estimate of the number of decimal digits of [m]. *)
Definition dec_digits (m : positive) : Z := Z.log2 (Zpos m) * 30103 / 100000 + 1.

(** The Number nearest to [(-1)^s * m * 10^e]. Magnitudes that are certainly
    beyond the binary64 range are cut short so that the powers of ten stay
    small; the result is the correctly rounded one in every case. *)
Definition of_decimal (s : bool) (m : Z) (e : Z) : number :=
  match m with
  | Zpos p =>
      if 400 <? Z.log2 (Zpos p) * 30103 / 100000 + e then S754_infinity s
      else if dec_digits p + e <? -400 then S754_zero s
      else if 0 <=? e then binary_round prec emax s (p * Z.to_pos (10 ^ e)) 0
      else
        let '(q, e', l) := SFdiv_core_binary prec emax (Zpos p) 0 (10 ^ (- e)) 0 in
        binary_round_aux prec emax s q e' l
  | _ => S754_zero s
  end.

(** ** Character classes *)

Definition digit_val (c : ascii) : option Z :=
  let n := Z.of_N (N_of_ascii c) in
  if (48 <=? n) && (n <=? 57) then Some (n - 48) else None.

Definition hex_val (c : ascii) : option Z :=
  let n := Z.of_N (N_of_ascii c) in
  if (48 <=? n) && (n <=? 57) then Some (n - 48)
  else if (97 <=? n) && (n <=? 102) then Some (n - 87)
  else if (65 <=? n) && (n <=? 70) then Some (n - 55)
  else None.

(** Leading white space and line terminators, on the UTF-8 bytes of the
    string: TAB, LF, VT, FF, CR, SP, NBSP, the Zs class, LS, PS and BOM. *)
Fixpoint trim_start (s : string) : string :=
  match s with
  | String c r =>
      let n := N_of_ascii c in
      if ((9 <=? n) && (n <=? 13))%N || (n =? 32)%N then trim_start r
      else match n, r with
      | 194%N, String c1 r1 =>
          if (N_of_ascii c1 =? 160)%N then trim_start r1 else s
      | 225%N, String c1 (String c2 r2) =>
          if (N_of_ascii c1 =? 154)%N && (N_of_ascii c2 =? 128)%N then trim_start r2 else s
      | 226%N, String c1 (String c2 r2) =>
          let n1 := N_of_ascii c1 in
          let n2 := N_of_ascii c2 in
          if ((n1 =? 128) && (((128 <=? n2) && (n2 <=? 138)) || (n2 =? 168) || (n2 =? 169) || (n2 =? 175)))%N
             || ((n1 =? 129) && (n2 =? 159))%N
          then trim_start r2 else s
      | 227%N, String c1 (String c2 r2) =>
          if (N_of_ascii c1 =? 128)%N && (N_of_ascii c2 =? 128)%N then trim_start r2 else s
      | 239%N, String c1 (String c2 r2) =>
          if (N_of_ascii c1 =? 187)%N && (N_of_ascii c2 =? 191)%N then trim_start r2 else s
      | _, _ => s
      end
  | EmptyString => s
  end.

(** Longest prefix of decimal digits: the digits read (as an integer), how
    many there are, and the rest of the string. *)
Fixpoint take_digits (acc : Z) (cnt : Z) (s : string) : Z * Z * string :=
  match s with
  | String c r =>
      match digit_val c with
      | Some d => take_digits (10 * acc + d) (cnt + 1) r
      | None => (acc, cnt, s)
      end
  | EmptyString => (acc, cnt, s)
  end.

Fixpoint take_hex (acc : Z) (cnt : Z) (s : string) : Z * Z * string :=
  match s with
  | String c r =>
      match hex_val c with
      | Some d => take_hex (16 * acc + d) (cnt + 1) r
      | None => (acc, cnt, s)
      end
  | EmptyString => (acc, cnt, s)
  end.

Definition take_sign (s : string) : bool * string :=
  match s with
  | String "-" r => (true, r)
  | String "+" r => (false, r)
  | _ => (false, s)
  end.

(** The exponent part [e[+-]ddd] when it is complete, else 0. *)
Definition take_exponent (s : string) : Z :=
  match s with
  | String c r =>
      if (c =? "e")%char || (c =? "E")%char then
        let '(neg, r1) := take_sign r in
        let '(v, cnt, _) := take_digits 0 0 r1 in
        if 0 <? cnt then (if neg then - v else v) else 0
      else 0
  | EmptyString => 0
  end.

(** ** [parseFloat]

    The longest prefix of the trimmed string that is a StrDecimalLiteral,
    converted to the nearest Number; [NaN] when there is none. *)
Definition parseFloat (input : string) : number :=
  let '(neg, s) := take_sign (trim_start input) in
  if String.prefix "Infinity" s then S754_infinity neg
  else
    let '(ip, icnt, r) := take_digits 0 0 s in
    match r with
    | String "." r1 =>
        let '(m, fcnt, r2) := take_digits ip 0 r1 in
        if (icnt =? 0) && (fcnt =? 0) then NaN
        else of_decimal neg m (take_exponent r2 - fcnt)
    | _ =>
        if icnt =? 0 then NaN else of_decimal neg ip (take_exponent r)
    end.

(** ** [parseInt] with no radix argument

    Radix 10, or 16 after a [0x]/[0X] prefix; the longest prefix of digits;
    [NaN] when there is none. *)
Definition parseInt (input : string) : number :=
  let '(neg, s) := take_sign (trim_start input) in
  let '(v, cnt, _) :=
    match s with
    | String "0" (String c r) =>
        if (c =? "x")%char || (c =? "X")%char then take_hex 0 0 r
        else take_digits 0 0 s
    | _ => take_digits 0 0 s
    end in
  if cnt =? 0 then NaN
  else binary_normalize prec emax (if neg then - v else v) 0 neg.

(** ** [encodeURIComponent]

    On the UTF-8 bytes of the string: the unreserved characters
    [A-Z a-z 0-9 - _ . ! ~ * ' ( )] are kept, every other byte becomes
    [%XX] in upper-case hexadecimal. *)
Definition uri_unreserved (c : ascii) : bool :=
  let n := Z.of_N (N_of_ascii c) in
  ((65 <=? n) && (n <=? 90)) || ((97 <=? n) && (n <=? 122)) || ((48 <=? n) && (n <=? 57))
  || (n =? 45) || (n =? 95) || (n =? 46) || (n =? 33) || (n =? 126)
  || (n =? 42) || (n =? 39) || (n =? 40) || (n =? 41).

Definition hex_digit (n : N) : ascii :=
  if (n <? 10)%N then ascii_of_N (48 + n) else ascii_of_N (55 + n).

Fixpoint encodeURIComponent (s : string) : string :=
  match s with
  | EmptyString => EmptyString
  | String c r =>
      if uri_unreserved c then String c (encodeURIComponent r)
      else
        let n := N_of_ascii c in
        String "%" (String (hex_digit (n / 16)) (String (hex_digit (n mod 16))
          (encodeURIComponent r)))
  end.

(** ** [URLSearchParams] serialisation

    The [application/x-www-form-urlencoded] byte serialiser: the
    alphanumerics and [* - . _] are kept, a space becomes [+], every other
    byte becomes [%XX]. *)
Definition form_safe (c : ascii) : bool :=
  let n := Z.of_N (N_of_ascii c) in
  ((65 <=? n) && (n <=? 90)) || ((97 <=? n) && (n <=? 122)) || ((48 <=? n) && (n <=? 57))
  || (n =? 42) || (n =? 45) || (n =? 46) || (n =? 95).

Fixpoint form_urlencode (s : string) : string :=
  match s with
  | EmptyString => EmptyString
  | String c r =>
      if form_safe c then String c (form_urlencode r)
      else if (N_of_ascii c =? 32)%N then String "+" (form_urlencode r)
      else
        let n := N_of_ascii c in
        String "%" (String (hex_digit (n / 16)) (String (hex_digit (n mod 16))
          (form_urlencode r)))
  end.

(** ** Values handed to [JSON.stringify] as request bodies *)
Inductive JsVal : Type :=
  | VUndefined
  | VNull
  | VBool (b : bool)
  | VNum (n : number)
  | VStr (s : string)
  | VArr (items : list JsVal)
  | VObj (fields : list (string * JsVal)).

(** Objects as association lists in property order. [obj_get o k] is [o.k]
    ([None] for [undefined]); [obj_set o k v] is [{...o, [k]: v}]. *)
Fixpoint obj_get {A : Type} (o : list (string * A)) (k : string) : option A :=
  match o with
  | [] => None
  | (k', v) :: r => if String.eqb k' k then Some v else obj_get r k
  end.

Fixpoint obj_set {A : Type} (o : list (string * A)) (k : string) (v : A) : list (string * A) :=
  match o with
  | [] => [(k, v)]
  | (k', v') :: r => if String.eqb k' k then (k', v) :: r else (k', v') :: obj_set r k v
  end.

(** Truthiness of a string-or-undefined value: [undefined] and [''] are falsy. *)
Definition truthy (v : option string) : bool :=
  match v with
  | Some s => negb (String.eqb s "")
  | None => false
  end.

(** [v || d] for a string-or-undefined [v] and a string [d]. *)
Definition or_else (v : option string) (d : string) : string :=
  match v with
  | Some s => if String.eqb s "" then d else s
  | None => d
  end.

(** [v || 0] for a number-or-undefined [v]: [undefined], [NaN] and both
    zeros are falsy. *)
Definition num_or_zero (v : option number) : number :=
  match v with
  | Some n => if isZero n || isNaN n then pos_zero else n
  | None => pos_zero
  end.

End Js.

Import Js.

(* ===================================================================== *)
(** * The browser host *)
(* ===================================================================== *)

(** What the handlers take from their environment: the JSON codec on the
    opaque [user] and [tenant] objects, the build-time backend address, the
    clock (as read during the run under consideration) and the number and
    date formatters. *)
Class Host : Type := {
  (** JSON values the client stores and passes on without inspecting them *)
  json : Type;
  (** [JSON.stringify(v)] *)
  JSON_stringify : json -> string;
  (** [JSON.parse(s)]; [None] when it throws a SyntaxError *)
  JSON_parse : string -> option json;
  (** [process.env.REACT_APP_BACKEND_URL] *)
  BACKEND_URL : string;
  (** [new Date(s).toISOString()]; [None] when it throws a RangeError *)
  Date_toISOString : string -> option string;
  (** [new Date().toISOString()] *)
  Date_now_ISO : string;
  (** [new Date().toISOString().split('T')[0]] *)
  Date_today : string;
  (** [x.toFixed(2)] *)
  Number_toFixed2 : number -> string;
  (** [String(x)] for a Number [x] *)
  Number_toString : number -> string
}.

(* ===================================================================== *)
(** * Client data *)
(* ===================================================================== *)

Module Company.
(** The company objects the server returns; only [id], [name] and
    [industry] are read by the client. *)
Record t : Type := { id : string; name : string; industry : string }.
End Company.

Module AuthData.
(** The body of a response of [/auth/login] and [/auth/register], as the
    handlers read it: every property may be absent ([undefined]).
    [detail] is the message of an error body. *)
Record t `{Host} : Type := {
  access_token : option string;
  user : option json;
  tenant : option json;
  company : option Company.t;
  detail : option string
}.
End AuthData.

Module Source.
(** An element of the top-sources list; only [id] is read. *)
Record t : Type := { id : option string }.
End Source.

Module Calc.
(** The result of a [/calculate/...] call. *)
Record details : Type := { emission_factor : option number }.
Record t : Type := {
  co2_equivalent_kg : option number;
  calculation_details : option details
}.
End Calc.

(** ** HTTP *)

Record Request : Type := {
url : string;
method : string;
headers : gmap string string;
body : option JsVal   (* the value given to [JSON.stringify] *)
}.

Record Response (A : Type) : Type := {
status : Z;
json_body : option A   (* [None]: [response.json()] rejects *)
}.
Arguments status {A} _.
Arguments json_body {A} _.

(** [response.ok] *)
Definition ok {A} (r : Response A) : bool := (200 <=? status r) && (status r <=? 299).

(** What the network does with one [fetch]: the promise rejects, or it
  resolves with a response. *)
Inductive FetchResult (A : Type) : Type :=
| Rejected
| Resolved (r : Response A).
Arguments Rejected {A}.
Arguments Resolved {A} _.

(** The [options] argument of [fetch] and of [authenticatedFetch]. *)
Record Options : Type := {
opt_method : option string;
opt_headers : option (gmap string string);
opt_body : option JsVal
}.

Definition no_options : Options :=
{| opt_method := None; opt_headers := None; opt_body := None |}.

Definition json_headers : gmap string string :=
{[ "Content-Type" := "application/json" ]}.

(** [{ method: 'POST', headers: { 'Content-Type': 'application/json' }, body: JSON.stringify(v) }] *)
Definition post_json (v : JsVal) : Options :=
{| opt_method := Some "POST"; opt_headers := Some json_headers; opt_body := Some v |}.

(** The request that [fetch(url, options)] sends. *)
Definition request_of (u : string) (o : Options) : Request :=
{| url := u;
   method := default "GET" (opt_method o);
   headers := default ∅ (opt_headers o);
   body := opt_body o |}.

(** ** Component state (the [useState] cells) *)

Module AuthCtx.
(** [AuthProvider]: [null] is [None]. *)
Record t `{Host} : Type := {
  user : option json;
  tenant : option json;
  token : option string;
  loading : bool
}.
End AuthCtx.

Module AppSt.
(** [AppContent] *)
Record t : Type := {
  currentCompany : option Company.t;
  companiesLoading : bool
}.
End AppSt.

Module LoginData.
Record t : Type := { email : string; password : string }.
End LoginData.

Module SignupData.
Record t : Type := {
  email : string;
  password : string;
  first_name : string;
  last_name : string;
  company_name : string;
  industry : string;
  employee_count : string;
  annual_revenue : string;
  headquarters_location : string;
  compliance_standards : list string
}.
End SignupData.

Module AuthForm.
(** [Auth] *)
Record t : Type := {
  isLogin : bool;
  loading : bool;
  error : string;
  loginData : LoginData.t;
  signupData : SignupData.t
}.
End AuthForm.

Module Tracker.
Record FormData : Type := {
  source_type : string;
  period_start : string;
  period_end : string;
  activity_data : list (string * string);
  data_quality : string
}.
(** [EmissionsTracker] *)
Record t `{Host} : Type := {
  activeTab : string;
  emissionSources : list Source.t;
  summary : option json;
  loading : bool;
  formData : FormData
}.
End Tracker.

Module Financial.
Record Initiative : Type := {
  initiative_name : string;
  description : string;
  implementation_cost : string;
  annual_savings : string;
  annual_co2_reduction : string;
  implementation_date : string;
  status : string
}.
(** [FinancialImpact] *)
Record t `{Host} : Type := {
  financialData : option json;
  initiatives : list json;
  loading : bool;
  showAddInitiative : bool;
  newInitiative : Initiative
}.
End Financial.

Module DashboardSt.
(** [Dashboard] *)
Record t `{Host} : Type := {
  dashboardData : option json;
  loading : bool;
  error : string
}.
End DashboardSt.

(** ** Handlers as computations

  A handler runs on the browser state and either completes with a value or
  throws; [try_catch] is [try { } catch (e) { }]. *)
Inductive JsError : Type :=
| Error (msg : string)
| TypeError
| RangeError
| SyntaxError
| NetworkFailure.

Inductive Result (A : Type) : Type :=
| Ok (a : A)
| Throw (e : JsError).
Arguments Ok {A} _.
Arguments Throw {A} _.

Section Browser.
Context `{Host}.

(** ** The browser state

    [localStorage], the state cells of the mounted components, and what the
    page has done so far: the requests sent (oldest first), the alerts shown
    and the lines written with [console.error]. *)
Record World : Type := {
  localStorage : gmap string string;
  authCtx : AuthCtx.t;
  app : AppSt.t;
  authForm : AuthForm.t;
  tracker : Tracker.t;
  financial : Financial.t;
  dashboard : DashboardSt.t;
  showUserMenu : bool;
  requests : list Request;
  alerts : list string;
  console : list string
}.

Definition with_localStorage (f : gmap string string -> gmap string string) (w : World) : World :=
  {| localStorage := f (localStorage w); authCtx := authCtx w; app := app w;
     authForm := authForm w; tracker := tracker w; financial := financial w;
     dashboard := dashboard w; showUserMenu := showUserMenu w;
     requests := requests w; alerts := alerts w; console := console w |}.

Definition with_authCtx (f : AuthCtx.t -> AuthCtx.t) (w : World) : World :=
  {| localStorage := localStorage w; authCtx := f (authCtx w); app := app w;
     authForm := authForm w; tracker := tracker w; financial := financial w;
     dashboard := dashboard w; showUserMenu := showUserMenu w;
     requests := requests w; alerts := alerts w; console := console w |}.

Definition with_app (f : AppSt.t -> AppSt.t) (w : World) : World :=
  {| localStorage := localStorage w; authCtx := authCtx w; app := f (app w);
     authForm := authForm w; tracker := tracker w; financial := financial w;
     dashboard := dashboard w; showUserMenu := showUserMenu w;
     requests := requests w; alerts := alerts w; console := console w |}.

Definition with_authForm (f : AuthForm.t -> AuthForm.t) (w : World) : World :=
  {| localStorage := localStorage w; authCtx := authCtx w; app := app w;
     authForm := f (authForm w); tracker := tracker w; financial := financial w;
     dashboard := dashboard w; showUserMenu := showUserMenu w;
     requests := requests w; alerts := alerts w; console := console w |}.

Definition with_tracker (f : Tracker.t -> Tracker.t) (w : World) : World :=
  {| localStorage := localStorage w; authCtx := authCtx w; app := app w;
     authForm := authForm w; tracker := f (tracker w); financial := financial w;
     dashboard := dashboard w; showUserMenu := showUserMenu w;
     requests := requests w; alerts := alerts w; console := console w |}.

Definition with_financial (f : Financial.t -> Financial.t) (w : World) : World :=
  {| localStorage := localStorage w; authCtx := authCtx w; app := app w;
     authForm := authForm w; tracker := tracker w; financial := f (financial w);
     dashboard := dashboard w; showUserMenu := showUserMenu w;
     requests := requests w; alerts := alerts w; console := console w |}.

Definition with_dashboard (f : DashboardSt.t -> DashboardSt.t) (w : World) : World :=
  {| localStorage := localStorage w; authCtx := authCtx w; app := app w;
     authForm := authForm w; tracker := tracker w; financial := financial w;
     dashboard := f (dashboard w); showUserMenu := showUserMenu w;
     requests := requests w; alerts := alerts w; console := console w |}.

Definition with_showUserMenu (b : bool) (w : World) : World :=
  {| localStorage := localStorage w; authCtx := authCtx w; app := app w;
     authForm := authForm w; tracker := tracker w; financial := financial w;
     dashboard := dashboard w; showUserMenu := b;
     requests := requests w; alerts := alerts w; console := console w |}.

Definition with_requests (f : list Request -> list Request) (w : World) : World :=
  {| localStorage := localStorage w; authCtx := authCtx w; app := app w;
     authForm := authForm w; tracker := tracker w; financial := financial w;
     dashboard := dashboard w; showUserMenu := showUserMenu w;
     requests := f (requests w); alerts := alerts w; console := console w |}.

Definition with_alerts (f : list string -> list string) (w : World) : World :=
  {| localStorage := localStorage w; authCtx := authCtx w; app := app w;
     authForm := authForm w; tracker := tracker w; financial := financial w;
     dashboard := dashboard w; showUserMenu := showUserMenu w;
     requests := requests w; alerts := f (alerts w); console := console w |}.

Definition with_console (f : list string -> list string) (w : World) : World :=
  {| localStorage := localStorage w; authCtx := authCtx w; app := app w;
     authForm := authForm w; tracker := tracker w; financial := financial w;
     dashboard := dashboard w; showUserMenu := showUserMenu w;
     requests := requests w; alerts := alerts w; console := f (console w) |}.

(** State-passing computations over the browser state. *)
Definition M (A : Type) : Type := World -> Result A * World.

Definition ret {A} (a : A) : M A := fun w => (Ok a, w).

Definition bind {A B} (m : M A) (k : A -> M B) : M B :=
  fun w => match m w with
           | (Ok a, w') => k a w'
           | (Throw e, w') => (Throw e, w')
           end.

Definition throw {A} (e : JsError) : M A := fun w => (Throw e, w).

Definition try_catch {A} (m : M A) (h : JsError -> M A) : M A :=
  fun w => match m w with
           | (Ok a, w') => (Ok a, w')
           | (Throw e, w') => h e w'
           end.

(** [try { m } finally { f }] *)
Definition try_finally {A} (m : M A) (f : M unit) : M A :=
  fun w => match m w with
           | (r, w') => match f w' with
                        | (Ok _, w'') => (r, w'')
                        | (Throw e, w'') => (Throw e, w'')
                        end
           end.

Definition gets {A} (f : World -> A) : M A := fun w => (Ok (f w), w).
Definition modify (f : World -> World) : M unit := fun w => (Ok tt, f w).

(** The state a handler leaves behind, whether it completed or threw. *)
Definition exec {A} (m : M A) (w : World) : World := snd (m w).

End Browser.

#[global] Instance M_ret `{Host} : MRet M := @ret _.
#[global] Instance M_bind `{Host} : MBind M := fun A B k m => bind m k.

Section Primitives.
Context `{Host}.

(** ** [localStorage] *)
Definition getItem (k : string) : M (option string) := gets (fun w => localStorage w !! k).
Definition setItem (k v : string) : M unit := modify (with_localStorage (insert k v)).
Definition removeItem (k : string) : M unit := modify (with_localStorage (delete k)).

(** The string that [setItem] stores for a string-or-undefined argument. *)
Definition to_string (v : option string) : string := default "undefined" v.

(** ** [fetch], [alert], [console.error] *)
Definition fetch {A} (u : string) (o : Options) (net : FetchResult A) : M (Response A) :=
  modify (with_requests (fun l => (l ++ [request_of u o])%list));;
  match net with
  | Rejected => throw NetworkFailure
  | Resolved r => mret r
  end.

(** [await response.json()] *)
Definition response_json {A} (r : Response A) : M A :=
  match json_body r with
  | Some a => mret a
  | None => throw SyntaxError
  end.

Definition alert (msg : string) : M unit := modify (with_alerts (fun l => (l ++ [msg])%list)).
Definition console_error (msg : string) : M unit := modify (with_console (fun l => (l ++ [msg])%list)).

(** [`${BACKEND_URL}/api`] *)
Definition API : string := BACKEND_URL ++ "/api".

End Primitives.

(* ===================================================================== *)
(** * [contexts/AuthContext.js] *)
(* ===================================================================== *)

Module AuthContext.
Section Handlers.
Context `{Host}.

Definition setUser (v : option json) : M unit :=
  modify (with_authCtx (fun a =>
    {| AuthCtx.user := v; AuthCtx.tenant := AuthCtx.tenant a;
       AuthCtx.token := AuthCtx.token a; AuthCtx.loading := AuthCtx.loading a |})).

Definition setTenant (v : option json) : M unit :=
  modify (with_authCtx (fun a =>
    {| AuthCtx.user := AuthCtx.user a; AuthCtx.tenant := v;
       AuthCtx.token := AuthCtx.token a; AuthCtx.loading := AuthCtx.loading a |})).

Definition setToken (v : option string) : M unit :=
  modify (with_authCtx (fun a =>
    {| AuthCtx.user := AuthCtx.user a; AuthCtx.tenant := AuthCtx.tenant a;
       AuthCtx.token := v; AuthCtx.loading := AuthCtx.loading a |})).

Definition setLoading (v : bool) : M unit :=
  modify (with_authCtx (fun a =>
    {| AuthCtx.user := AuthCtx.user a; AuthCtx.tenant := AuthCtx.tenant a;
       AuthCtx.token := AuthCtx.token a; AuthCtx.loading := v |})).

(** [JSON.stringify(v)] handed to [setItem]: [undefined] is stored as the
    string ["undefined"]. *)
Definition stringify (v : option json) : string :=
  to_string (JSON_stringify <$> v).

(** [JSON.parse(s)] *)
Definition parse (s : string) : M json :=
  match JSON_parse s with
  | Some v => mret v
  | None => throw SyntaxError
  end.

Definition login (authData : AuthData.t) : M unit :=
  setToken (AuthData.access_token authData);;
  setUser (AuthData.user authData);;
  setTenant (AuthData.tenant authData);;
  setItem "climabill_token" (to_string (AuthData.access_token authData));;
  setItem "climabill_user" (stringify (AuthData.user authData));;
  setItem "climabill_tenant" (stringify (AuthData.tenant authData)).

Definition logout : M unit :=
  setToken None;;
  setUser None;;
  setTenant None;;
  removeItem "climabill_token";;
  removeItem "climabill_user";;
  removeItem "climabill_tenant";;
  removeItem "climabill_company_id".

(** The effect run once when the provider mounts: "Check for existing auth
    on mount". *)
Definition useEffect_mount : M unit :=
  savedToken ← getItem "climabill_token";
  savedUser ← getItem "climabill_user";
  savedTenant ← getItem "climabill_tenant";
  (if truthy savedToken && truthy savedUser && truthy savedTenant then
     try_catch
       (setToken savedToken;;
        u ← parse (default "" savedUser);
        setUser (Some u);;
        t ← parse (default "" savedTenant);
        setTenant (Some t))
       (fun _ =>
          console_error "Error parsing saved auth data:";;
          logout)
   else mret tt);;
  setLoading false.

(** "API helper with automatic token inclusion" *)
Definition authenticatedFetch {A} (u : string) (options : Options)
    (net : FetchResult A) : M (Response A) :=
  token ← gets (fun w => AuthCtx.token (authCtx w));
  match token with
  | Some tok =>
      if String.eqb tok "" then throw (Error "No authentication token available")
      else
        let defaultHeaders : gmap string string :=
          {[ "Content-Type" := "application/json";
             "Authorization" := "Bearer " ++ tok ]} in
        let config :=
          {| opt_method := opt_method options;
             opt_headers := Some (default ∅ (opt_headers options) ∪ defaultHeaders);
             opt_body := opt_body options |} in
        response ← fetch u config net;
        if status response =? 401 then
          logout;;
          throw (Error "Authentication expired")
        else mret response
  | None => throw (Error "No authentication token available")
  end.

(** [isAuthenticated: !!token] *)
Definition isAuthenticated (w : World) : bool := truthy (AuthCtx.token (authCtx w)).

End Handlers.
End AuthContext.

(* ===================================================================== *)
(** * [App.js] with authentication ([AppContent]) *)
(* ===================================================================== *)

Module App.
Section Handlers.
Context `{Host}.

Definition setCurrentCompany (v : option Company.t) : M unit :=
  modify (with_app (fun a =>
    {| AppSt.currentCompany := v; AppSt.companiesLoading := AppSt.companiesLoading a |})).

Definition setCompaniesLoading (v : bool) : M unit :=
  modify (with_app (fun a =>
    {| AppSt.currentCompany := AppSt.currentCompany a; AppSt.companiesLoading := v |})).

Definition fetchUserCompanies (net : FetchResult (list Company.t)) : M unit :=
  try_finally
    (try_catch
       (setCompaniesLoading true;;
        response ← AuthContext.authenticatedFetch (API ++ "/companies") no_options net;
        if ok response then
          companies ← response_json response;
          match companies with
          | c :: _ =>
              (* Set the first company as current *)
              setCurrentCompany (Some c);;
              setItem "climabill_company_id" (Company.id c)
          | [] => mret tt
          end
        else console_error "Failed to fetch companies")
       (fun _ => console_error "Error fetching companies:"))
    (setCompaniesLoading false).

(** [useEffect(..., [isAuthenticated])] *)
Definition useEffect_isAuthenticated (net : FetchResult (list Company.t)) : M unit :=
  w ← gets (fun w => w);
  if AuthContext.isAuthenticated w && negb (bool_decide (is_Some (AppSt.currentCompany (app w))))
  then fetchUserCompanies net
  else mret tt.

Definition handleAuthSuccess (authData : AuthData.t) : M unit :=
  AuthContext.login authData;;
  (* If registration provides company data, use it *)
  match AuthData.company authData with
  | Some c =>
      setCurrentCompany (Some c);;
      setItem "climabill_company_id" (Company.id c)
  | None => mret tt
  end.

End Handlers.
End App.

(* ===================================================================== *)
(** * [components/Auth.js] *)
(* ===================================================================== *)

Module Auth.
Section Handlers.
Context `{Host}.

Definition setLoading (v : bool) : M unit :=
  modify (with_authForm (fun a =>
    {| AuthForm.isLogin := AuthForm.isLogin a; AuthForm.loading := v;
       AuthForm.error := AuthForm.error a; AuthForm.loginData := AuthForm.loginData a;
       AuthForm.signupData := AuthForm.signupData a |})).

Definition setError (v : string) : M unit :=
  modify (with_authForm (fun a =>
    {| AuthForm.isLogin := AuthForm.isLogin a; AuthForm.loading := AuthForm.loading a;
       AuthForm.error := v; AuthForm.loginData := AuthForm.loginData a;
       AuthForm.signupData := AuthForm.signupData a |})).

Definition setLoginData (f : LoginData.t -> LoginData.t) : M unit :=
  modify (with_authForm (fun a =>
    {| AuthForm.isLogin := AuthForm.isLogin a; AuthForm.loading := AuthForm.loading a;
       AuthForm.error := AuthForm.error a; AuthForm.loginData := f (AuthForm.loginData a);
       AuthForm.signupData := AuthForm.signupData a |})).

Definition setSignupData (f : SignupData.t -> SignupData.t) : M unit :=
  modify (with_authForm (fun a =>
    {| AuthForm.isLogin := AuthForm.isLogin a; AuthForm.loading := AuthForm.loading a;
       AuthForm.error := AuthForm.error a; AuthForm.loginData := AuthForm.loginData a;
       AuthForm.signupData := f (AuthForm.signupData a) |})).

(** [{...prev, [e.target.name]: e.target.value}], for the inputs of the
    login form; a name that is not a field of the form adds a property that
    nothing reads. *)
Definition handleLoginChange (name value : string) : M unit :=
  setLoginData (fun prev =>
    {| LoginData.email := if String.eqb name "email" then value else LoginData.email prev;
       LoginData.password :=
         if String.eqb name "password" then value else LoginData.password prev |}).

Definition handleSignupChange (name value : string) : M unit :=
  let pick field old := if String.eqb name field then value else old in
  setSignupData (fun prev =>
    {| SignupData.email := pick "email" (SignupData.email prev);
       SignupData.password := pick "password" (SignupData.password prev);
       SignupData.first_name := pick "first_name" (SignupData.first_name prev);
       SignupData.last_name := pick "last_name" (SignupData.last_name prev);
       SignupData.company_name := pick "company_name" (SignupData.company_name prev);
       SignupData.industry := pick "industry" (SignupData.industry prev);
       SignupData.employee_count := pick "employee_count" (SignupData.employee_count prev);
       SignupData.annual_revenue := pick "annual_revenue" (SignupData.annual_revenue prev);
       SignupData.headquarters_location :=
         pick "headquarters_location" (SignupData.headquarters_location prev);
       SignupData.compliance_standards := SignupData.compliance_standards prev |}).

Definition handleComplianceChange (standard : string) : M unit :=
  setSignupData (fun prev =>
    let l := SignupData.compliance_standards prev in
    {| SignupData.email := SignupData.email prev;
       SignupData.password := SignupData.password prev;
       SignupData.first_name := SignupData.first_name prev;
       SignupData.last_name := SignupData.last_name prev;
       SignupData.company_name := SignupData.company_name prev;
       SignupData.industry := SignupData.industry prev;
       SignupData.employee_count := SignupData.employee_count prev;
       SignupData.annual_revenue := SignupData.annual_revenue prev;
       SignupData.headquarters_location := SignupData.headquarters_location prev;
       SignupData.compliance_standards :=
         if existsb (String.eqb standard) l
         then filter (fun x => x <> standard) l
         else (l ++ [standard])%list |}).

(** The options of both calls: POST with a JSON content type; only the
    sign-up carries a body. *)
Definition post_no_body : Options :=
  {| opt_method := Some "POST"; opt_headers := Some json_headers; opt_body := None |}.

Definition login_url (d : LoginData.t) : string :=
  API ++ "/auth/login?email=" ++ encodeURIComponent (LoginData.email d)
      ++ "&password=" ++ encodeURIComponent (LoginData.password d).

Definition handleLogin (onAuthSuccess : AuthData.t -> M unit)
    (net : FetchResult AuthData.t) : M unit :=
  setLoading true;;
  setError "";;
  loginData ← gets (fun w => AuthForm.loginData (authForm w));
  try_catch
    (response ← fetch (login_url loginData) post_no_body net;
     if ok response then
       result ← response_json response;
       (* Store auth data *)
       setItem "climabill_token" (to_string (AuthData.access_token result));;
       setItem "climabill_user" (AuthContext.stringify (AuthData.user result));;
       setItem "climabill_tenant" (AuthContext.stringify (AuthData.tenant result));;
       onAuthSuccess result
     else
       errorData ← response_json response;
       setError (or_else (AuthData.detail errorData) "Login failed"))
    (fun _ => setError "Network error. Please try again.");;
  setLoading false.

(** [{...signupData, employee_count: parseInt(...), annual_revenue: parseFloat(...)}] *)
Definition signup_body (d : SignupData.t) : JsVal :=
  VObj [ ("email", VStr (SignupData.email d));
         ("password", VStr (SignupData.password d));
         ("first_name", VStr (SignupData.first_name d));
         ("last_name", VStr (SignupData.last_name d));
         ("company_name", VStr (SignupData.company_name d));
         ("industry", VStr (SignupData.industry d));
         ("employee_count", VNum (parseInt (SignupData.employee_count d)));
         ("annual_revenue", VNum (parseFloat (SignupData.annual_revenue d)));
         ("headquarters_location", VStr (SignupData.headquarters_location d));
         ("compliance_standards", VArr (VStr <$> SignupData.compliance_standards d)) ].

Definition handleSignup (onAuthSuccess : AuthData.t -> M unit)
    (net : FetchResult AuthData.t) : M unit :=
  setLoading true;;
  setError "";;
  signupData ← gets (fun w => AuthForm.signupData (authForm w));
  try_catch
    (response ← fetch (API ++ "/auth/register") (post_json (signup_body signupData)) net;
     if ok response then
       result ← response_json response;
       (* Store auth data *)
       setItem "climabill_token" (to_string (AuthData.access_token result));;
       setItem "climabill_user" (AuthContext.stringify (AuthData.user result));;
       setItem "climabill_tenant" (AuthContext.stringify (AuthData.tenant result));;
       match AuthData.company result with
       | Some c =>
           setItem "climabill_company_id" (Company.id c);;
           onAuthSuccess result
       | None => throw TypeError   (* [result.company.id] of [undefined] *)
       end
     else
       errorData ← response_json response;
       setError (or_else (AuthData.detail errorData) "Registration failed"))
    (fun _ => setError "Network error. Please try again.");;
  setLoading false.

End Handlers.
End Auth.

(* ===================================================================== *)
(** * [components/Navbar.js] *)
(* ===================================================================== *)

Module Navbar.
Section Handlers.
Context `{Host}.

Definition handleLogout : M unit :=
  AuthContext.logout;;
  modify (with_showUserMenu false).

End Handlers.
End Navbar.

(* ===================================================================== *)
(** * [components/EmissionsTracker.js] *)
(* ===================================================================== *)

Module EmissionsTracker.
Section Handlers.
Context `{Host}.

Definition setEmissionSources (v : list Source.t) : M unit :=
  modify (with_tracker (fun t =>
    {| Tracker.activeTab := Tracker.activeTab t; Tracker.emissionSources := v;
       Tracker.summary := Tracker.summary t; Tracker.loading := Tracker.loading t;
       Tracker.formData := Tracker.formData t |})).

Definition setSummary (v : option json) : M unit :=
  modify (with_tracker (fun t =>
    {| Tracker.activeTab := Tracker.activeTab t;
       Tracker.emissionSources := Tracker.emissionSources t;
       Tracker.summary := v; Tracker.loading := Tracker.loading t;
       Tracker.formData := Tracker.formData t |})).

Definition setLoading (v : bool) : M unit :=
  modify (with_tracker (fun t =>
    {| Tracker.activeTab := Tracker.activeTab t;
       Tracker.emissionSources := Tracker.emissionSources t;
       Tracker.summary := Tracker.summary t; Tracker.loading := v;
       Tracker.formData := Tracker.formData t |})).

Definition setFormData (f : Tracker.FormData -> Tracker.FormData) : M unit :=
  modify (with_tracker (fun t =>
    {| Tracker.activeTab := Tracker.activeTab t;
       Tracker.emissionSources := Tracker.emissionSources t;
       Tracker.summary := Tracker.summary t; Tracker.loading := Tracker.loading t;
       Tracker.formData := f (Tracker.formData t) |})).

(** The initial and the reset value of the form. *)
Definition emptyForm : Tracker.FormData :=
  {| Tracker.source_type := "electricity";
     Tracker.period_start := Date_today;
     Tracker.period_end := Date_today;
     Tracker.activity_data := [];
     Tracker.data_quality := "estimated" |}.

Definition fetchEmissionSources (company : Company.t)
    (net : FetchResult (list Source.t)) : M unit :=
  try_catch
    (response ← fetch (API ++ "/companies/" ++ Company.id company
                           ++ "/emissions/sources/top?limit=10") no_options net;
     if ok response then
       sources ← response_json response;
       setEmissionSources sources
     else mret tt)
    (fun _ => console_error "Error fetching emission sources:").

Definition fetchSummary (company : Company.t) (net : FetchResult json) : M unit :=
  try_catch
    (response ← fetch (API ++ "/companies/" ++ Company.id company
                           ++ "/emissions/summary") no_options net;
     if ok response then
       summaryData ← response_json response;
       setSummary (Some summaryData)
     else mret tt)
    (fun _ => console_error "Error fetching summary:").

Definition updateActivityData (field value : string) : M unit :=
  setFormData (fun prev =>
    {| Tracker.source_type := Tracker.source_type prev;
       Tracker.period_start := Tracker.period_start prev;
       Tracker.period_end := Tracker.period_end prev;
       Tracker.activity_data := obj_set (Tracker.activity_data prev) field value;
       Tracker.data_quality := Tracker.data_quality prev |}).

(** The inline [onChange] handlers of the form. *)
Definition onChange_source_type (value : string) : M unit :=
  setFormData (fun prev =>
    {| Tracker.source_type := value;
       Tracker.period_start := Tracker.period_start prev;
       Tracker.period_end := Tracker.period_end prev;
       Tracker.activity_data := [];
       Tracker.data_quality := Tracker.data_quality prev |}).

Definition onChange_period_start (value : string) : M unit :=
  setFormData (fun prev =>
    {| Tracker.source_type := Tracker.source_type prev;
       Tracker.period_start := value;
       Tracker.period_end := Tracker.period_end prev;
       Tracker.activity_data := Tracker.activity_data prev;
       Tracker.data_quality := Tracker.data_quality prev |}).

Definition onChange_period_end (value : string) : M unit :=
  setFormData (fun prev =>
    {| Tracker.source_type := Tracker.source_type prev;
       Tracker.period_start := Tracker.period_start prev;
       Tracker.period_end := value;
       Tracker.activity_data := Tracker.activity_data prev;
       Tracker.data_quality := Tracker.data_quality prev |}).

Definition onChange_data_quality (value : string) : M unit :=
  setFormData (fun prev =>
    {| Tracker.source_type := Tracker.source_type prev;
       Tracker.period_start := Tracker.period_start prev;
       Tracker.period_end := Tracker.period_end prev;
       Tracker.activity_data := Tracker.activity_data prev;
       Tracker.data_quality := value |}).

(** The first [switch]: "Prepare calculation data based on source type".
    [parseFloat(x || 0)] reads the string [x] when it is truthy and the
    string of the number 0 otherwise; likewise [parseInt(x || 1)]. *)
Definition calculationData (formData : Tracker.FormData) : JsVal :=
  let a := Tracker.activity_data formData in
  let st := Tracker.source_type formData in
  if String.eqb st "electricity" then
    VObj [ ("kwh_consumed", VNum (parseFloat (or_else (obj_get a "kwh_consumed") "0")));
           ("region", VStr (or_else (obj_get a "region") "us_average"));
           ("renewable_percentage",
              VNum (parseFloat (or_else (obj_get a "renewable_percentage") "0"))) ]
  else if String.eqb st "fuel" then
    VObj [ ("fuel_type", VStr (or_else (obj_get a "fuel_type") "gasoline"));
           ("quantity", VNum (parseFloat (or_else (obj_get a "quantity") "0")));
           ("unit", VStr (or_else (obj_get a "unit") "liters")) ]
  else if String.eqb st "travel" then
    VObj [ ("trips", VArr [
             VObj [ ("transport_mode",
                       VStr (or_else (obj_get a "transport_mode") "car_petrol"));
                    ("distance_km",
                       VNum (parseFloat (or_else (obj_get a "distance_km") "0")));
                    ("passengers",
                       VNum (parseInt (or_else (obj_get a "passengers") "1"))) ] ]) ]
  else
    (* Default calculation for other types *)
    VObj [ ("kwh_consumed", VNum (parseFloat (or_else (obj_get a "energy_consumed") "0")));
           ("region", VStr "us_average") ].

(** [v.k] for a value [v] *)
Definition prop (v : JsVal) (k : string) : JsVal :=
  match v with
  | VObj fields => default VUndefined (obj_get fields k)
  | _ => VUndefined
  end.

(** The second [switch]: "Calculate emissions using the appropriate endpoint". *)
Definition calculationEndpoint (formData : Tracker.FormData) : string :=
  let st := Tracker.source_type formData in
  if String.eqb st "electricity" then "/calculate/electricity"
  else if String.eqb st "fuel" then "/calculate/fuel"
  else if String.eqb st "travel" then "/calculate/travel"
  else "/calculate/electricity".

Definition requestBody (formData : Tracker.FormData) : JsVal :=
  let st := Tracker.source_type formData in
  if String.eqb st "electricity" then calculationData formData
  else if String.eqb st "fuel" then calculationData formData
  else if String.eqb st "travel" then prop (calculationData formData) "trips"
  else calculationData formData.

(** [emissionSources[0]?.id || 'default-source-id'] *)
Definition sourceId (emissionSources : list Source.t) : string :=
  or_else (match emissionSources with
           | s :: _ => Source.id s
           | [] => None
           end) "default-source-id".

(** [new Date(s).toISOString()] *)
Definition toISOString (s : string) : M string :=
  match Date_toISOString s with
  | Some iso => mret iso
  | None => throw RangeError
  end.

Definition opt_num (v : option number) : JsVal :=
  match v with
  | Some n => VNum n
  | None => VUndefined
  end.

Definition handleCalculateEmissions (company : Company.t)
    (calcNet : FetchResult Calc.t) (addNet : FetchResult json)
    (summaryNet : FetchResult json) : M unit :=
  setLoading true;;
  formData ← gets (fun w => Tracker.formData (tracker w));
  emissionSources ← gets (fun w => Tracker.emissionSources (tracker w));
  try_catch
    (calculationResponse ←
       fetch (API ++ calculationEndpoint formData) (post_json (requestBody formData)) calcNet;
     (if ok calculationResponse then mret tt else throw (Error "Calculation failed"));;
     calculationResult ← response_json calculationResponse;
     (* Find the appropriate source ID (we'll use the first available source for now) *)
     let sourceId := sourceId emissionSources in
     (* Add the emission record *)
     period_start ← toISOString (Tracker.period_start formData);
     period_end ← toISOString (Tracker.period_end formData);
     let recordData :=
       VObj [ ("source_id", VStr sourceId);
              ("period_start", VStr period_start);
              ("period_end", VStr period_end);
              ("co2_equivalent_kg", opt_num (Calc.co2_equivalent_kg calculationResult));
              ("activity_data",
                 VObj (prod_map (fun k => k) VStr <$> Tracker.activity_data formData));
              ("emission_factor",
                 VNum (num_or_zero
                         (Calc.calculation_details calculationResult
                            ≫= Calc.emission_factor)));
              ("data_quality", VStr (Tracker.data_quality formData)) ] in
     addResponse ←
       fetch (API ++ "/companies/" ++ Company.id company ++ "/emissions")
             (post_json recordData) addNet;
     if ok addResponse then
       match Calc.co2_equivalent_kg calculationResult with
       | Some kg =>
           alert ("Successfully added emission record: " ++ Number_toFixed2 kg
                    ++ " kg CO₂eq")
       | None => throw TypeError   (* [toFixed] of [undefined] *)
       end;;
       (* Reset form *)
       setFormData (fun _ => emptyForm);;
       (* Refresh data *)
       fetchSummary company summaryNet
     else throw (Error "Failed to add emission record"))
    (fun _ =>
       console_error "Error calculating emissions:";;
       alert "Error calculating emissions. Please try again.");;
  setLoading false.

End Handlers.
End EmissionsTracker.

(* ===================================================================== *)
(** * [components/FinancialImpact.js] *)
(* ===================================================================== *)

Module FinancialImpact.
Section Handlers.
Context `{Host}.

Definition setFinancialData (v : option json) : M unit :=
  modify (with_financial (fun t =>
    {| Financial.financialData := v; Financial.initiatives := Financial.initiatives t;
       Financial.loading := Financial.loading t;
       Financial.showAddInitiative := Financial.showAddInitiative t;
       Financial.newInitiative := Financial.newInitiative t |})).

Definition setInitiatives (v : list json) : M unit :=
  modify (with_financial (fun t =>
    {| Financial.financialData := Financial.financialData t; Financial.initiatives := v;
       Financial.loading := Financial.loading t;
       Financial.showAddInitiative := Financial.showAddInitiative t;
       Financial.newInitiative := Financial.newInitiative t |})).

Definition setLoading (v : bool) : M unit :=
  modify (with_financial (fun t =>
    {| Financial.financialData := Financial.financialData t;
       Financial.initiatives := Financial.initiatives t;
       Financial.loading := v;
       Financial.showAddInitiative := Financial.showAddInitiative t;
       Financial.newInitiative := Financial.newInitiative t |})).

Definition setShowAddInitiative (v : bool) : M unit :=
  modify (with_financial (fun t =>
    {| Financial.financialData := Financial.financialData t;
       Financial.initiatives := Financial.initiatives t;
       Financial.loading := Financial.loading t;
       Financial.showAddInitiative := v;
       Financial.newInitiative := Financial.newInitiative t |})).

Definition setNewInitiative (v : Financial.Initiative) : M unit :=
  modify (with_financial (fun t =>
    {| Financial.financialData := Financial.financialData t;
       Financial.initiatives := Financial.initiatives t;
       Financial.loading := Financial.loading t;
       Financial.showAddInitiative := Financial.showAddInitiative t;
       Financial.newInitiative := v |})).

Definition emptyInitiative : Financial.Initiative :=
  {| Financial.initiative_name := "";
     Financial.description := "";
     Financial.implementation_cost := "";
     Financial.annual_savings := "";
     Financial.annual_co2_reduction := "";
     Financial.implementation_date := Date_today;
     Financial.status := "planned" |}.

(** The inline [onChange] handlers of the form:
    [setNewInitiative(prev => ({ ...prev, [field]: e.target.value }))]. *)
Definition onChange (field value : string) : M unit :=
  let pick f old := if String.eqb field f then value else old in
  modify (with_financial (fun t =>
    let prev := Financial.newInitiative t in
    {| Financial.financialData := Financial.financialData t;
       Financial.initiatives := Financial.initiatives t;
       Financial.loading := Financial.loading t;
       Financial.showAddInitiative := Financial.showAddInitiative t;
       Financial.newInitiative :=
         {| Financial.initiative_name :=
              pick "initiative_name" (Financial.initiative_name prev);
            Financial.description := pick "description" (Financial.description prev);
            Financial.implementation_cost :=
              pick "implementation_cost" (Financial.implementation_cost prev);
            Financial.annual_savings :=
              pick "annual_savings" (Financial.annual_savings prev);
            Financial.annual_co2_reduction :=
              pick "annual_co2_reduction" (Financial.annual_co2_reduction prev);
            Financial.implementation_date :=
              pick "implementation_date" (Financial.implementation_date prev);
            Financial.status := pick "status" (Financial.status prev) |} |})).

Definition fetchFinancialData (company : Company.t) (net : FetchResult json) : M unit :=
  try_catch
    (response ← fetch (API ++ "/companies/" ++ Company.id company
                           ++ "/financial-impact") no_options net;
     if ok response then
       data ← response_json response;
       setFinancialData (Some data)
     else mret tt)
    (fun _ => console_error "Error fetching financial data:");;
  setLoading false.

Definition fetchInitiatives (company : Company.t) (net : FetchResult (list json)) : M unit :=
  try_catch
    (response ← fetch (API ++ "/companies/" ++ Company.id company
                           ++ "/initiatives") no_options net;
     if ok response then
       data ← response_json response;
       setInitiatives data
     else mret tt)
    (fun _ => console_error "Error fetching initiatives:").

(** [(parseFloat(annual_savings) / parseFloat(implementation_cost)) * 100] *)
Definition roi_percentage (i : Financial.Initiative) : number :=
  mul (div (parseFloat (Financial.annual_savings i))
           (parseFloat (Financial.implementation_cost i)))
      (of_Z 100).

(** The object given to [JSON.stringify], without the [implementation_date]
    that the clock conversion supplies. *)
Definition initiative_body (company : Company.t) (i : Financial.Initiative)
    (implementation_date : string) : JsVal :=
  VObj [ ("company_id", VStr (Company.id company));
         ("initiative_name", VStr (Financial.initiative_name i));
         ("description", VStr (Financial.description i));
         ("implementation_cost", VNum (parseFloat (Financial.implementation_cost i)));
         ("annual_savings", VNum (parseFloat (Financial.annual_savings i)));
         ("annual_co2_reduction", VNum (parseFloat (Financial.annual_co2_reduction i)));
         ("roi_percentage", VNum (roi_percentage i));
         ("implementation_date", VStr implementation_date);
         ("status", VStr (Financial.status i)) ].

Definition handleAddInitiative (company : Company.t)
    (net : FetchResult json) (initiativesNet : FetchResult (list json))
    (financialNet : FetchResult json) : M unit :=
  newInitiative ← gets (fun w => Financial.newInitiative (financial w));
  try_catch
    (implementation_date ←
       EmissionsTracker.toISOString (Financial.implementation_date newInitiative);
     response ←
       fetch (API ++ "/companies/" ++ Company.id company ++ "/initiatives")
             (post_json (initiative_body company newInitiative implementation_date)) net;
     if ok response then
       setShowAddInitiative false;;
       setNewInitiative emptyInitiative;;
       fetchInitiatives company initiativesNet;;
       fetchFinancialData company financialNet (* Refresh financial data *)
     else alert "Failed to add initiative")
    (fun _ =>
       console_error "Error adding initiative:";;
       alert "Error adding initiative").

End Handlers.
End FinancialImpact.

(* ===================================================================== *)
(** * [components/Dashboard.js] *)
(* ===================================================================== *)

Module Dashboard.
Section Handlers.
Context `{Host}.

Definition setDashboardData (v : option json) : M unit :=
  modify (with_dashboard (fun t =>
    {| DashboardSt.dashboardData := v; DashboardSt.loading := DashboardSt.loading t;
       DashboardSt.error := DashboardSt.error t |})).

Definition setLoading (v : bool) : M unit :=
  modify (with_dashboard (fun t =>
    {| DashboardSt.dashboardData := DashboardSt.dashboardData t; DashboardSt.loading := v;
       DashboardSt.error := DashboardSt.error t |})).

Definition setError (v : string) : M unit :=
  modify (with_dashboard (fun t =>
    {| DashboardSt.dashboardData := DashboardSt.dashboardData t;
       DashboardSt.loading := DashboardSt.loading t; DashboardSt.error := v |})).

Definition fetchDashboardData (company : Company.t) (net : FetchResult json) : M unit :=
  try_catch
    (setLoading true;;
     response ← fetch (API ++ "/companies/" ++ Company.id company ++ "/dashboard")
                      no_options net;
     if ok response then
       data ← response_json response;
       setDashboardData (Some data)
     else setError "Failed to load dashboard data")
    (fun _ => setError "Network error. Please try again.");;
  setLoading false.

End Handlers.
End Dashboard.

(* ===================================================================== *)
(** * The other views

    [CarbonMarketplace], [SupplyChainVisibility], [AIChat], [CompanySetup]
    and the entry point without authentication keep their [useState] cells
    to themselves; their handlers are given the cells they read as
    arguments, and what they do to the shared browser state (requests,
    alerts, console, [localStorage]) is what is recorded here. *)
(* ===================================================================== *)

Module CarbonMarketplace.
Section Handlers.
Context `{Host}.

Record Filters : Type := { project_type : string; max_price : string; min_rating : string }.

(** The body of a marketplace response, as read. *)
Record Reply : Type := { total_cost : option number; detail : option string }.

(** [params.append(k, v)] when [v] is truthy, then [`${params}`]. *)
Definition params (f : Filters) : string :=
  let add k v acc :=
    if String.eqb v "" then acc
    else (acc ++ [(form_urlencode k ++ "=" ++ form_urlencode v)%string])%list in
  String.concat "&"
    (add "min_rating" (min_rating f)
       (add "max_price" (max_price f)
          (add "project_type" (project_type f) []))).

Definition fetchMarketplaceData (filters : Filters) (net : FetchResult json) : M unit :=
  try_catch
    (response ← fetch (API ++ "/marketplace/projects?" ++ params filters) no_options net;
     if ok response then
       _ ← response_json response;
       mret tt
     else mret tt)
    (fun _ => console_error "Error fetching marketplace data:").

Definition fetchCertificates (company : Company.t) (net : FetchResult json) : M unit :=
  try_catch
    (response ← fetch (API ++ "/companies/" ++ Company.id company ++ "/certificates")
                      no_options net;
     if ok response then
       _ ← response_json response;
       mret tt
     else mret tt)
    (fun _ => console_error "Error fetching certificates:").

Definition handlePurchase (company : Company.t) (listing_id : string)
    (purchaseAmount : number) (net : FetchResult Reply)
    (certificatesNet : FetchResult json) : M unit :=
  try_catch
    (response ←
       fetch (API ++ "/marketplace/purchase")
             (post_json (VObj [ ("listing_id", VStr listing_id);
                                ("credits_amount", VNum purchaseAmount);
                                ("company_id", VStr (Company.id company)) ])) net;
     if ok response then
       result ← response_json response;
       match total_cost result with
       | Some c =>
           alert ("Successfully purchased " ++ Number_toString purchaseAmount
                    ++ " carbon credits for $" ++ Number_toFixed2 c)
       | None => throw TypeError
       end;;
       fetchCertificates company certificatesNet
     else
       error ← response_json response;
       alert ("Purchase failed: " ++ to_string (detail error)))
    (fun _ =>
       console_error "Error purchasing credits:";;
       alert "Purchase failed. Please try again.").

Definition handleRetire (company : Company.t) (certificate_id : string)
    (retireAmount : number) (reason : string) (net : FetchResult Reply)
    (certificatesNet : FetchResult json) : M unit :=
  try_catch
    (response ←
       fetch (API ++ "/marketplace/retire")
             (post_json (VObj [ ("certificate_id", VStr certificate_id);
                                ("credits_amount", VNum retireAmount);
                                ("retirement_reason", VStr reason);
                                ("company_id", VStr (Company.id company)) ])) net;
     if ok response then
       alert ("Successfully retired " ++ Number_toString retireAmount ++ " carbon credits");;
       fetchCertificates company certificatesNet
     else
       error ← response_json response;
       alert ("Retirement failed: " ++ to_string (detail error)))
    (fun _ =>
       console_error "Error retiring credits:";;
       alert "Retirement failed. Please try again.").

End Handlers.
End CarbonMarketplace.

Module SupplyChainVisibility.
Section Handlers.
Context `{Host}.

Definition get_json (u : string) (msg : string) (net : FetchResult json) : M unit :=
  try_catch
    (response ← fetch u no_options net;
     if ok response then
       _ ← response_json response;
       mret tt
     else mret tt)
    (fun _ => console_error msg).

Definition fetchDashboardData (company : Company.t) (net : FetchResult json) : M unit :=
  get_json (API ++ "/companies/" ++ Company.id company ++ "/supply-chain/dashboard")
           "Error fetching dashboard data:" net.

Definition fetchSuppliers (company : Company.t) (net : FetchResult json) : M unit :=
  get_json (API ++ "/companies/" ++ Company.id company ++ "/suppliers")
           "Error fetching suppliers:" net.

Definition fetchEmissions (company : Company.t) (net : FetchResult json) : M unit :=
  get_json (API ++ "/companies/" ++ Company.id company ++ "/supply-chain-emissions")
           "Error fetching emissions:" net.

(** [parseFloat(o.k)]: an absent property reads as the string of [undefined]. *)
Definition float_of (o : list (string * string)) (k : string) : JsVal :=
  VNum (parseFloat (to_string (obj_get o k))).

Definition int_of (o : list (string * string)) (k : string) : JsVal :=
  VNum (parseInt (to_string (obj_get o k))).

Definition strings (o : list (string * string)) : list (string * JsVal) :=
  prod_map (fun k => k) VStr <$> o.

Definition handleAddSupplier (company : Company.t) (newSupplier : list (string * string))
    (net suppliersNet dashboardNet : FetchResult json) : M unit :=
  try_catch
    (response ←
       fetch (API ++ "/companies/" ++ Company.id company ++ "/suppliers")
             (post_json (VObj
                (obj_set (obj_set (obj_set (strings newSupplier)
                   "annual_revenue" (float_of newSupplier "annual_revenue"))
                   "employee_count" (int_of newSupplier "employee_count"))
                   "carbon_score" (float_of newSupplier "carbon_score")))) net;
     if ok response then
       fetchSuppliers company suppliersNet;;
       fetchDashboardData company dashboardNet
     else alert "Failed to add supplier")
    (fun _ =>
       console_error "Error adding supplier:";;
       alert "Error adding supplier").

Definition handleAddEmission (company : Company.t) (newEmission : list (string * string))
    (net emissionsNet dashboardNet : FetchResult json) : M unit :=
  try_catch
    (response ←
       fetch (API ++ "/companies/" ++ Company.id company ++ "/supply-chain-emissions")
             (post_json (VObj
                (obj_set (obj_set (obj_set (strings newEmission)
                   "co2_equivalent_kg" (float_of newEmission "co2_equivalent_kg"))
                   "reporting_period_start" (VStr Date_now_ISO))
                   "reporting_period_end" (VStr Date_now_ISO)))) net;
     if ok response then
       fetchEmissions company emissionsNet;;
       fetchDashboardData company dashboardNet
     else alert "Failed to add emission data")
    (fun _ =>
       console_error "Error adding emission:";;
       alert "Error adding emission data").

End Handlers.
End SupplyChainVisibility.

Module AIChat.
Section Handlers.
Context `{Host}.

Definition handleSendMessage (company : Company.t) (message : string) (loading : bool)
    (net : FetchResult json) : M unit :=
  if String.eqb (trim_start message) "" || loading then mret tt
  else
    try_catch
      (response ←
         fetch (API ++ "/companies/" ++ Company.id company ++ "/ai/query")
               (post_json (VObj [ ("company_id", VStr (Company.id company));
                                  ("query_text", VStr message) ])) net;
       if ok response then
         _ ← response_json response;
         mret tt
       else mret tt)
      (fun _ => console_error "Error sending message:").

End Handlers.
End AIChat.

Module CompanySetup.
Section Handlers.
Context `{Host}.

Record FormData : Type := {
  name : string;
  industry : string;
  employee_count : string;
  annual_revenue : string;
  headquarters_location : string;
  compliance_standards : list string
}.

Definition handleSubmit (formData : FormData)
    (onCompanyCreated : Company.t -> M unit)
    (net : FetchResult Company.t) : M unit :=
  try_catch
    (response ←
       fetch (API ++ "/companies")
             (post_json (VObj
                [ ("name", VStr (name formData));
                  ("industry", VStr (industry formData));
                  ("employee_count", VNum (parseInt (employee_count formData)));
                  ("annual_revenue", VNum (parseFloat (annual_revenue formData)));
                  ("headquarters_location", VStr (headquarters_location formData));
                  ("compliance_standards", VArr (VStr <$> compliance_standards formData)) ]))
             net;
     if ok response then
       company ← response_json response;
       onCompanyCreated company
     else
       _ ← response_json response;
       mret tt)
    (fun _ => mret tt).

End Handlers.
End CompanySetup.

(** The entry point without authentication, and its navigation bar. *)
Module LegacyApp.
Section Handlers.
Context `{Host}.

Definition fetchCompany (companyId : string) (net : FetchResult Company.t) : M unit :=
  try_catch
    (response ← fetch (API ++ "/companies/" ++ companyId) no_options net;
     if ok response then
       company ← response_json response;
       App.setCurrentCompany (Some company)
     else removeItem "climabill_company_id")
    (fun _ =>
       console_error "Error fetching company:";;
       removeItem "climabill_company_id").

Definition useEffect_mount (net : FetchResult Company.t) : M unit :=
  (* Check if we have a company stored or need to create one *)
  savedCompanyId ← getItem "climabill_company_id";
  match savedCompanyId with
  | Some cid => if String.eqb cid "" then mret tt else fetchCompany cid net
  | None => mret tt
  end.

Definition handleCompanyCreated (company : Company.t) : M unit :=
  App.setCurrentCompany (Some company);;
  setItem "climabill_company_id" (Company.id company).

(** [Navbar.handleNewCompany], with [onCompanyChange = setCurrentCompany] *)
Definition handleNewCompany : M unit :=
  removeItem "climabill_company_id";;
  App.setCurrentCompany None.

End Handlers.
End LegacyApp.

(* ===================================================================== *)
(** * The running client: screens and events *)
(* ===================================================================== *)

Module Client.
Section Step.
Context `{Host}.

(** What [AppContent] renders. *)
Inductive Screen : Type :=
  | Spinner
  | AuthScreen
  | NoCompanies
  | Main (company : Company.t).

Definition screen (w : World) : Screen :=
  if AuthCtx.loading (authCtx w) || AppSt.companiesLoading (app w) then Spinner
  else if negb (AuthContext.isAuthenticated w) then AuthScreen
  else match AppSt.currentCompany (app w) with
       | None => NoCompanies
       | Some c => Main c
       end.

(** What can happen to the page: an effect runs, or the user acts on the
    screen shown; each event carries what the network answers to the calls
    its handler makes. *)
Inductive Event : Type :=
  | ProviderMount
  | AuthenticatedEffect (net : FetchResult (list Company.t))
  | Refresh (net : FetchResult (list Company.t))
  | LoginSubmit (net : FetchResult AuthData.t)
  | SignupSubmit (net : FetchResult AuthData.t)
  | LoginInput (name value : string)
  | SignupInput (name value : string)
  | ComplianceToggle (standard : string)
  | Logout
  | DashboardLoad (net : FetchResult json)
  | SourcesLoad (net : FetchResult (list Source.t))
  | SummaryLoad (net : FetchResult json)
  | ActivityInput (field value : string)
  | SourceTypeInput (value : string)
  | PeriodStartInput (value : string)
  | PeriodEndInput (value : string)
  | DataQualityInput (value : string)
  | CalculateEmissions (calcNet : FetchResult Calc.t) (addNet summaryNet : FetchResult json)
  | FinancialLoad (net : FetchResult json)
  | InitiativesLoad (net : FetchResult (list json))
  | InitiativeInput (field value : string)
  | AddInitiative (net : FetchResult json) (initiativesNet : FetchResult (list json))
      (financialNet : FetchResult json)
  | MarketplaceLoad (filters : CarbonMarketplace.Filters) (net : FetchResult json)
  | CertificatesLoad (net : FetchResult json)
  | Purchase (listing_id : string) (amount : number)
      (net : FetchResult CarbonMarketplace.Reply) (certificatesNet : FetchResult json)
  | Retire (certificate_id : string) (amount : number) (reason : string)
      (net : FetchResult CarbonMarketplace.Reply) (certificatesNet : FetchResult json)
  | SupplyDashboardLoad (net : FetchResult json)
  | SuppliersLoad (net : FetchResult json)
  | SupplyEmissionsLoad (net : FetchResult json)
  | AddSupplier (newSupplier : list (string * string)) (net n1 n2 : FetchResult json)
  | AddSupplyEmission (newEmission : list (string * string)) (net n1 n2 : FetchResult json)
  | SendMessage (message : string) (loading : bool) (net : FetchResult json).

(** The handler an event runs on the main screen, for the current company. *)
Definition on_main (company : Company.t) (ev : Event) : M unit :=
  match ev with
  | Logout => Navbar.handleLogout
  | DashboardLoad net => Dashboard.fetchDashboardData company net
  | SourcesLoad net => EmissionsTracker.fetchEmissionSources company net
  | SummaryLoad net => EmissionsTracker.fetchSummary company net
  | ActivityInput field value => EmissionsTracker.updateActivityData field value
  | SourceTypeInput value => EmissionsTracker.onChange_source_type value
  | PeriodStartInput value => EmissionsTracker.onChange_period_start value
  | PeriodEndInput value => EmissionsTracker.onChange_period_end value
  | DataQualityInput value => EmissionsTracker.onChange_data_quality value
  | InitiativeInput field value => FinancialImpact.onChange field value
  | CalculateEmissions calcNet addNet summaryNet =>
      EmissionsTracker.handleCalculateEmissions company calcNet addNet summaryNet
  | FinancialLoad net => FinancialImpact.fetchFinancialData company net
  | InitiativesLoad net => FinancialImpact.fetchInitiatives company net
  | AddInitiative net n1 n2 => FinancialImpact.handleAddInitiative company net n1 n2
  | MarketplaceLoad filters net => CarbonMarketplace.fetchMarketplaceData filters net
  | CertificatesLoad net => CarbonMarketplace.fetchCertificates company net
  | Purchase l a net n1 => CarbonMarketplace.handlePurchase company l a net n1
  | Retire c a r net n1 => CarbonMarketplace.handleRetire company c a r net n1
  | SupplyDashboardLoad net => SupplyChainVisibility.fetchDashboardData company net
  | SuppliersLoad net => SupplyChainVisibility.fetchSuppliers company net
  | SupplyEmissionsLoad net => SupplyChainVisibility.fetchEmissions company net
  | AddSupplier s net n1 n2 => SupplyChainVisibility.handleAddSupplier company s net n1 n2
  | AddSupplyEmission e net n1 n2 =>
      SupplyChainVisibility.handleAddEmission company e net n1 n2
  | SendMessage m l net => AIChat.handleSendMessage company m l net
  | _ => mret tt
  end.

(** The handler of an event in a given state; an event that the screen
    shown does not offer does nothing. *)
Definition handler (ev : Event) (w : World) : M unit :=
  match ev with
  | ProviderMount => AuthContext.useEffect_mount
  | AuthenticatedEffect net => App.useEffect_isAuthenticated net
  | _ =>
      match screen w, ev with
      | AuthScreen, LoginInput name value => Auth.handleLoginChange name value
      | AuthScreen, SignupInput name value => Auth.handleSignupChange name value
      | AuthScreen, ComplianceToggle standard => Auth.handleComplianceChange standard
      | AuthScreen, LoginSubmit net => Auth.handleLogin App.handleAuthSuccess net
      | AuthScreen, SignupSubmit net => Auth.handleSignup App.handleAuthSuccess net
      | NoCompanies, Refresh net => App.fetchUserCompanies net
      | Main c, _ => on_main c ev
      | _, _ => mret tt
      end
  end.

Definition step (ev : Event) (w : World) : World := exec (handler ev w) w.

Fixpoint run (evs : list Event) (w : World) : World :=
  match evs with
  | [] => w
  | ev :: rest => run rest (step ev w)
  end.

(** The page as first loaded: empty forms, nobody signed in, the provider
    not yet mounted; [ls] is what an earlier visit left in [localStorage]. *)
Definition initial (ls : gmap string string) : World :=
  {| localStorage := ls;
     authCtx := {| AuthCtx.user := None; AuthCtx.tenant := None;
                   AuthCtx.token := None; AuthCtx.loading := true |};
     app := {| AppSt.currentCompany := None; AppSt.companiesLoading := false |};
     authForm :=
       {| AuthForm.isLogin := true; AuthForm.loading := false; AuthForm.error := "";
          AuthForm.loginData := {| LoginData.email := ""; LoginData.password := "" |};
          AuthForm.signupData :=
            {| SignupData.email := ""; SignupData.password := "";
               SignupData.first_name := ""; SignupData.last_name := "";
               SignupData.company_name := ""; SignupData.industry := "saas";
               SignupData.employee_count := ""; SignupData.annual_revenue := "";
               SignupData.headquarters_location := "";
               SignupData.compliance_standards := [] |} |};
     tracker :=
       {| Tracker.activeTab := "add"; Tracker.emissionSources := [];
          Tracker.summary := None; Tracker.loading := false;
          Tracker.formData := EmissionsTracker.emptyForm |};
     financial :=
       {| Financial.financialData := None; Financial.initiatives := [];
          Financial.loading := true; Financial.showAddInitiative := false;
          Financial.newInitiative := FinancialImpact.emptyInitiative |};
     dashboard :=
       {| DashboardSt.dashboardData := None; DashboardSt.loading := true;
          DashboardSt.error := "" |};
     showUserMenu := false;
     requests := [];
     alerts := [];
     console := [] |}.

(** ** The persisted session *)

(** The three session entries of [localStorage]. *)
Definition session (w : World) : option string * option string * option string :=
  (localStorage w !! "climabill_token",
   localStorage w !! "climabill_user",
   localStorage w !! "climabill_tenant").

(** The requests a computation adds to the trace. *)
Definition emitted {A} (m : M A) (w : World) : list Request :=
  drop (length (requests w)) (requests (exec m w)).

End Step.
End Client.

(* ===================================================================== *)
(** * The server side: token verifier, request authorizer, domain services *)
(* ===================================================================== *)

Module Server.

(** Modelled from the spec: what a session credential carries (section 3);
    the server code is not among the sources. *)
Record Claims : Type := { user_id : string; tenant_id : string; expiry : Z }.

(** Modelled from the spec: a credential as presented, unreadable or claims
    with a signature. *)
Inductive Token : Type :=
  | Malformed
  | Signed (c : Claims) (signature : string).

(** Modelled from the spec: a domain record (section 3), with the tenant
    that owns it. *)
Record DomainRecord : Type := { rid : string; owner : string; fields : string }.

(** Modelled from the spec: the operations of a domain service. [claimed]
    is whatever tenant or company identifier the client put in the request
    body. *)
Inductive Op : Type :=
  | ListAll
  | Get (id : string)
  | Create (id : string) (data : string) (claimed : option string)
  | Update (id : string) (data : string) (claimed : option string)
  | Delete (id : string).

(** Modelled from the spec: where a request goes. Login and registration
    are exempt from authorization; every other route is a domain operation,
    with the company identifier of its path when it has one. *)
Inductive Route : Type :=
  | Login
  | Register
  | Scoped (path_company : option string) (op : Op).

(** Modelled from the spec: a request, with the bearer credential of its
    authorization header when it has one. *)
Record Request : Type := { authorization : option Token; route : Route }.

(** Modelled from the spec: the failures of section 7 that the authorizer
    and the services raise. *)
Inductive Failure : Type := Unauthenticated | Forbidden | NotFound.

(** Modelled from the spec: the policy choice of section 4.2, whether a
    cross-tenant attempt is answered [Forbidden], or [NotFound] like an
    absent resource. *)
Inductive Policy : Type := Distinguish | Collapse.

(** Modelled from the spec: the identity attached to the request's
    processing context (section 4.2 step 3). *)
Record Context : Type := { ctx_user : string; ctx_tenant : string }.

(** Modelled from the spec: what the caller is answered. *)
Inductive Reply : Type :=
  | Failed (f : Failure)
  | Exempt                              (* handed to login or registration *)
  | Records (rs : list DomainRecord)
  | Done.

(** Modelled from the spec: what handling one request amounts to, the
    reply, the store afterwards, the calls made to the domain service, and
    the records read or written. *)
Record Outcome : Type := {
  reply : Reply;
  store : list DomainRecord;
  invoked : list (Context * Op);
  touched : list DomainRecord
}.

Section Authorizer.
(** The server-held signing secret and the signature scheme. *)
Variable secret : string.
Variable mac : string -> Claims -> string.
(** The fixed lifetime of a token. *)
Variable lifetime : Z.

(** Modelled from the spec: the token issuer of section 4.1, which is server
    code that is not among the sources. It embeds the user id, the tenant id
    and an expiry a fixed duration after issuance. *)
Definition issue (user tenant : string) (now : Z) : Token :=
  let c := {| user_id := user; tenant_id := tenant; expiry := now + lifetime |} in
  Signed c (mac secret c).

(** Modelled from the spec: the token verifier of section 4.1. It fails, with
    one uniform error, when the payload is malformed, the signature does not
    match, or the current time exceeds the expiry. *)
Definition verify (now : Z) (t : Token) : option Claims :=
  match t with
  | Malformed => None
  | Signed c s =>
      if String.eqb s (mac secret c) && (now <=? expiry c) then Some c else None
  end.

(** Modelled from the spec: steps 1 to 4 of the request authorizer of
    section 4.2, for a non-exempt request. *)
Definition authorize (policy : Policy) (now : Z) (auth : option Token)
    (path_company : option string) : Failure + Context :=
  match auth with
  | None => inl Unauthenticated                              (* step 1 *)
  | Some t =>
      match verify now t with
      | None => inl Unauthenticated                          (* step 2 *)
      | Some c =>
          let ctx := {| ctx_user := user_id c; ctx_tenant := tenant_id c |} in  (* step 3 *)
          match path_company with                            (* step 4 *)
          | Some a =>
              if String.eqb a (ctx_tenant ctx) then inr ctx
              else inl match policy with
                       | Distinguish => Forbidden
                       | Collapse => NotFound
                       end
          | None => inr ctx
          end
      end
  end.

Definition owned_by (tenant : string) (r : DomainRecord) : bool :=
  String.eqb (owner r) tenant.

Definition is_record (tenant id : string) (r : DomainRecord) : bool :=
  owned_by tenant r && String.eqb (rid r) id.

(** Modelled from the spec: a domain service of section 4.2 step 5. Every
    storage filter uses the tenant id of the context, never a
    client-supplied one. It returns the reply, the store afterwards and the
    records it read or wrote. *)
Definition service (ctx : Context) (op : Op) (db : list DomainRecord)
    : Reply * list DomainRecord * list DomainRecord :=
  let mine := filter (fun r => owned_by (ctx_tenant ctx) r = true) db in
  match op with
  | ListAll => (Records mine, db, mine)
  | Get id =>
      match filter (fun r => is_record (ctx_tenant ctx) id r = true) db with
      | [] => (Failed NotFound, db, [])
      | rs => (Records rs, db, rs)
      end
  | Create id data _ =>
      let r := {| rid := id; owner := ctx_tenant ctx; fields := data |} in
      (Done, (db ++ [r])%list, [r])
  | Update id data _ =>
      match filter (fun r => is_record (ctx_tenant ctx) id r = true) db with
      | [] => (Failed NotFound, db, [])
      | rs =>
          (Done,
           (fun r => if is_record (ctx_tenant ctx) id r
                     then {| rid := rid r; owner := owner r; fields := data |}
                     else r) <$> db,
           rs)
      end
  | Delete id =>
      match filter (fun r => is_record (ctx_tenant ctx) id r = true) db with
      | [] => (Failed NotFound, db, [])
      | rs => (Done, filter (fun r => is_record (ctx_tenant ctx) id r = false) db, rs)
      end
  end.

(** Modelled from the spec: the handling of one request, section 4.2.
    Login and registration are exempt from steps 1 to 4; every other request
    reaches a domain service only through the authorizer. *)
Definition handle (policy : Policy) (now : Z) (req : Request)
    (db : list DomainRecord) : Outcome :=
  match route req with
  | Login | Register =>
      {| reply := Exempt; store := db; invoked := []; touched := [] |}
  | Scoped path_company op =>
      match authorize policy now (authorization req) path_company with
      | inl f => {| reply := Failed f; store := db; invoked := []; touched := [] |}
      | inr ctx =>
          let '(r, db', t) := service ctx op db in
          {| reply := r; store := db'; invoked := [(ctx, op)]; touched := t |}
      end
  end.

(** Modelled from the spec: the requests handled one after the other, each
    on the store its predecessors left: every reachable execution. *)
Fixpoint serve (policy : Policy) (reqs : list (Z * Request)) (db : list DomainRecord)
    : list Outcome :=
  match reqs with
  | [] => []
  | (now, req) :: rest =>
      let o := handle policy now req db in
      o :: serve policy rest (store o)
  end.

(** Modelled from the spec: the tenant that the credential of a request
    binds, when it verifies. *)
Definition credential_tenant (now : Z) (req : Request) : option string :=
  c ← authorization req ≫= verify now; Some (tenant_id c).

(** Modelled from the spec: the isolation guarantee of section 4.2 for one
    handled request. Every record read or written belongs to the tenant of
    the credential, and the records of every other tenant are in the store
    afterwards exactly as before. *)
Definition isolated (now : Z) (req : Request) (db : list DomainRecord) (o : Outcome) : Prop :=
  (forall r, r ∈ touched o -> credential_tenant now req = Some (owner r)) /\
  (forall r, credential_tenant now req <> Some (owner r) -> r ∈ store o <-> r ∈ db).

(** Modelled from the spec: isolation along an execution, each request on
    the store left by the ones before it. *)
Fixpoint all_isolated (reqs : list (Z * Request)) (db : list DomainRecord)
    (os : list Outcome) : Prop :=
  match reqs, os with
  | [], [] => True
  | (now, req) :: reqs', o :: os' => isolated now req db o /\ all_isolated reqs' (store o) os'
  | _, _ => False
  end.

End Authorizer.
End Server.

(* ===================================================================== *)
(** * A reference host

    One host on which the statements can be evaluated: JSON values are
    represented by their texts, dates are the [YYYY-MM-DD] strings that a
    date input produces, numbers are printed as [Number::toString] and
    [toFixed] prescribe. The theorems below hold for every host. *)
(* ===================================================================== *)

Module RefHost.

(** ** JSON texts *)

Inductive tok : Type := TLB | TRB | TLK | TRK | TColon | TComma | TStr | TScalar.

Definition dquote : ascii := ascii_of_N 34.

Definition is_hex (c : ascii) : bool := bool_decide (is_Some (hex_val c)).
Definition is_digit (c : ascii) : bool := bool_decide (is_Some (digit_val c)).

(** The rest of the input after the closing quote of a string. *)
Fixpoint lex_string (s : string) : option string :=
  match s with
  | EmptyString => None
  | String c r =>
      if (c =? dquote)%char then Some r
      else if (c =? "\")%char then
        match r with
        | String e r1 =>
            if (e =? "u")%char then
              match r1 with
              | String h1 (String h2 (String h3 (String h4 r2))) =>
                  if is_hex h1 && is_hex h2 && is_hex h3 && is_hex h4
                  then lex_string r2 else None
              | _ => None
              end
            else if existsb (Ascii.eqb e)
                      [dquote; "\"; "/"; "b"; "f"; "n"; "r"; "t"]%char
            then lex_string r1 else None
        | EmptyString => None
        end
      else if (N_of_ascii c <? 32)%N then None
      else lex_string r
  end.

Fixpoint skip_digits (s : string) : nat * string :=
  match s with
  | String c r =>
      if is_digit c then let '(n, r') := skip_digits r in (S n, r') else (O, s)
  | EmptyString => (O, s)
  end.

(** The rest of the input after a number: an optional minus sign, then
    zero or a digit string that does not start with zero, then an optional
    fraction (a point and digits) and an optional exponent (e or E, an
    optional sign, digits). *)
Definition lex_number (s : string) : option string :=
  let s1 := match s with String "-" r => r | _ => s end in
  let after_int :=
    match s1 with
    | String "0" r => Some r
    | _ => match skip_digits s1 with
           | (O, _) => None
           | (_, r) => Some r
           end
    end in
  match after_int with
  | None => None
  | Some r =>
      let after_frac :=
        match r with
        | String "." r1 =>
            match skip_digits r1 with
            | (O, _) => None
            | (_, r2) => Some r2
            end
        | _ => Some r
        end in
      match after_frac with
      | None => None
      | Some r2 =>
          match r2 with
          | String c r3 =>
              if (c =? "e")%char || (c =? "E")%char then
                let r4 := match r3 with
                          | String "+" r' | String "-" r' => r'
                          | _ => r3
                          end in
                match skip_digits r4 with
                | (O, _) => None
                | (_, r5) => Some r5
                end
              else Some r2
          | EmptyString => Some r2
          end
      end
  end.

Fixpoint drop_string (n : nat) (s : string) : string :=
  match n, s with
  | S n', String _ r => drop_string n' r
  | _, _ => s
  end.

Fixpoint lex (fuel : nat) (s : string) : option (list tok) :=
  match fuel with
  | O => match s with EmptyString => Some [] | _ => None end
  | S f =>
      match s with
      | EmptyString => Some []
      | String c r =>
          let n := N_of_ascii c in
          if (n =? 32)%N || (n =? 9)%N || (n =? 10)%N || (n =? 13)%N then lex f r
          else if (c =? "{")%char then cons TLB <$> lex f r
          else if (c =? "}")%char then cons TRB <$> lex f r
          else if (c =? "[")%char then cons TLK <$> lex f r
          else if (c =? "]")%char then cons TRK <$> lex f r
          else if (c =? ":")%char then cons TColon <$> lex f r
          else if (c =? ",")%char then cons TComma <$> lex f r
          else if (c =? dquote)%char then
            r' ← lex_string r; cons TStr <$> lex f r'
          else if (c =? "-")%char || is_digit c then
            r' ← lex_number s; cons TScalar <$> lex f r'
          else if String.prefix "true" s then cons TScalar <$> lex f (drop_string 4 s)
          else if String.prefix "null" s then cons TScalar <$> lex f (drop_string 4 s)
          else if String.prefix "false" s then cons TScalar <$> lex f (drop_string 5 s)
          else None
      end
  end.

(** Where the parser stands: before a value, before a value or the end of
    an array, after a value, before a key or the end of an object, before a
    key, before a colon. *)
Inductive mode : Type := V | V0 | A | K | K1 | C.

(** The enclosing containers, innermost first: [true] for an object. *)
Fixpoint accept (m : mode) (stack : list bool) (ts : list tok) : bool :=
  match ts with
  | [] => match m, stack with A, [] => true | _, _ => false end
  | t :: r =>
      match m, t with
      | (V | V0), (TStr | TScalar) => accept A stack r
      | (V | V0), TLB => accept K (true :: stack) r
      | (V | V0), TLK => accept V0 (false :: stack) r
      | V0, TRK => match stack with false :: st => accept A st r | _ => false end
      | K, TRB => match stack with true :: st => accept A st r | _ => false end
      | (K | K1), TStr => accept C stack r
      | C, TColon => accept V stack r
      | A, TComma =>
          match stack with
          | true :: _ => accept K1 stack r
          | false :: _ => accept V stack r
          | [] => false
          end
      | A, TRB => match stack with true :: st => accept A st r | _ => false end
      | A, TRK => match stack with false :: st => accept A st r | _ => false end
      | _, _ => false
      end
  end.

(** Whether [s] is a JSON text. *)
Definition json_valid (s : string) : bool :=
  match lex (S (String.length s)) s with
  | Some ts => accept V [] ts
  | None => false
  end.

(** ** Dates *)

Definition leap (y : Z) : bool :=
  ((y mod 4 =? 0) && negb (y mod 100 =? 0)) || (y mod 400 =? 0).

Definition days_in_month (y m : Z) : Z :=
  if m =? 2 then (if leap y then 29 else 28)
  else if (m =? 4) || (m =? 6) || (m =? 9) || (m =? 11) then 30
  else 31.

(** [new Date(s).toISOString()] for a calendar date [s = YYYY-MM-DD], which
    denotes midnight UTC; any other string is an invalid date here. *)
Definition date_toISOString (s : string) : option string :=
  match s with
  | String y1 (String y2 (String y3 (String y4 (String "-"
      (String m1 (String m2 (String "-" (String d1 (String d2 EmptyString))))))))) =>
      match digit_val y1, digit_val y2, digit_val y3, digit_val y4,
            digit_val m1, digit_val m2, digit_val d1, digit_val d2 with
      | Some a, Some b, Some c, Some d, Some e, Some f, Some g, Some h =>
          let y := 1000 * a + 100 * b + 10 * c + d in
          let m := 10 * e + f in
          let dd := 10 * g + h in
          if (1 <=? m) && (m <=? 12) && (1 <=? dd) && (dd <=? days_in_month y m)
          then Some (s ++ "T00:00:00.000Z")
          else None
      | _, _, _, _, _, _, _, _ => None
      end
  | _ => None
  end.

(** ** Printing numbers *)

(** A positive finite number [m * 2^e] as a fraction. *)
Definition fraction (m : positive) (e : Z) : Z * Z :=
  if 0 <=? e then (Zpos m * 2 ^ e, 1) else (Zpos m, 2 ^ (- e)).

(** [floor (num / den * 10^k)] and the comparison of [num / den] with [10^k]. *)
Definition scaled (num den k : Z) : Z * Z :=
  if 0 <=? k then (num * 10 ^ k, den) else (num, den * 10 ^ (- k)).

Definition floor_scaled (num den k : Z) : Z :=
  let '(p, q) := scaled num den k in p / q.

(** The [n] with [10^(n-1) <= num/den < 10^n], from a first guess. *)
Fixpoint magnitude (fuel : nat) (num den n : Z) : Z :=
  match fuel with
  | O => n
  | S f =>
      if floor_scaled num den (1 - n) =? 0 then magnitude f num den (n - 1)
      else if 10 <=? floor_scaled num den (1 - n) then magnitude f num den (n + 1)
      else n
  end.

Definition same (x y : number) : bool :=
  match x, y with
  | S754_finite s1 m1 e1, S754_finite s2 m2 e2 =>
      Bool.eqb s1 s2 && (m1 =? m2)%positive && (e1 =? e2)
  | _, _ => false
  end.

(** The shortest digit string [s] (as an integer of [k] digits) and the
    exponent [n] such that [s * 10^(n-k)] reads back as [x]. *)
Fixpoint shortest (fuel : nat) (x : number) (num den n k : Z) : Z * Z * Z :=
  match fuel with
  | O => (0, k, n)
  | S f =>
      let lo := floor_scaled num den (k - n) in
      let hi := lo + 1 in
      let ok_lo := same (of_decimal false lo (n - k)) x in
      let ok_hi := same (of_decimal false hi (n - k)) x in
      let '(p, q) := scaled num den (k - n) in
      let pick_hi :=
        match Z.compare (2 * p) ((2 * lo + 1) * q) with
        | Lt => false
        | Gt => true
        | Eq => Z.odd lo
        end in
      if ok_lo && (negb ok_hi || negb pick_hi) then (lo, k, n)
      else if ok_hi then
        (if hi =? 10 ^ k then (1, 1, n + 1) else (hi, k, n))
      else shortest f x num den n (k + 1)
  end.

Fixpoint zeros (n : nat) : string :=
  match n with
  | O => ""
  | S n' => String "0" (zeros n')
  end.

Definition take_string (n : nat) (s : string) : string := String.substring 0 n s.

Definition format_digits (s k n : Z) : string :=
  let ds : string := pretty s in
  if (k <=? n) && (n <=? 21) then ds ++ zeros (Z.to_nat (n - k))
  else if (0 <? n) && (n <=? 21) then
    take_string (Z.to_nat n) ds ++ "." ++ drop_string (Z.to_nat n) ds
  else if (-6 <? n) && (n <=? 0) then "0." ++ zeros (Z.to_nat (- n)) ++ ds
  else
    let e := n - 1 in
    let es : string := (if e <? 0 then "-" else "+") ++ pretty (Z.abs e) in
    if k =? 1 then ds ++ "e" ++ es
    else take_string 1 ds ++ "." ++ drop_string 1 ds ++ "e" ++ es.

(** [Number::toString(x)] in radix 10. *)
Definition number_toString (x : number) : string :=
  match x with
  | S754_nan => "NaN"
  | S754_zero _ => "0"
  | S754_infinity s => if s then "-Infinity" else "Infinity"
  | S754_finite s m e =>
      let '(num, den) := fraction m e in
      let guess := (Z.log2 num - Z.log2 den) * 30103 / 100000 + 1 in
      let n := magnitude 8 num den guess in
      let '(d, k, n') := shortest 18 (S754_finite false m e) num den n 1 in
      (if s then "-" else "") ++ format_digits d k n'
  end.

(** [x.toFixed(2)] *)
Definition number_toFixed2 (x : number) : string :=
  match x with
  | S754_nan => "NaN"
  | S754_zero _ => "0.00"
  | S754_infinity s => if s then "-Infinity" else "Infinity"
  | S754_finite s m e =>
      let '(num, den) := fraction m e in
      if 10 ^ 21 * den <=? num then number_toString x
      else
        let n := (2 * 100 * num + den) / (2 * den) in
        let ds : string := pretty n in
        let ds := zeros (3 - String.length ds) ++ ds in
        let l := String.length ds in
        (if s then "-" else "") ++ take_string (l - 2) ds ++ "." ++ drop_string (l - 2) ds
  end.

#[export] Instance host : Host := {|
  json := string;
  JSON_stringify := fun v => v;
  JSON_parse := fun s => if json_valid s then Some s else None;
  BACKEND_URL := "https://climabill.example";
  Date_toISOString := date_toISOString;
  Date_now_ISO := "2024-12-03T09:30:00.000Z";
  Date_today := "2024-12-03";
  Number_toFixed2 := number_toFixed2;
  Number_toString := number_toString
|}.

End RefHost.

(* ===================================================================== *)
(** * The stated properties, in the words of the specification *)
(* ===================================================================== *)

Module Spec.
Section Stated.
Context `{Host}.

(** ** The client session *)


(** ** The emissions entry as a tagged union keyed by source type *)

Inductive Activity : Type :=
  | Electricity (kwh_consumed : number) (region : string) (renewable_percentage : number)
  | Fuel (fuel_type : string) (quantity : number) (unit : string)
  | Travel (transport_mode : string) (distance_km : number) (passengers : number)
  | Other (energy_consumed : number).

(** A numeric field of the form: its parsed text, or 0 when it is missing. *)
Definition numeric (a : list (string * string)) (k : string) : number :=
  match obj_get a k with
  | Some s => if String.eqb s "" then pos_zero else parseFloat s
  | None => pos_zero
  end.

(** The passenger count: its parsed text, or 1 when it is missing. *)
Definition count (a : list (string * string)) (k : string) : number :=
  match obj_get a k with
  | Some s => if String.eqb s "" then of_Z 1 else parseInt s
  | None => of_Z 1
  end.

(** A choice of the form: its text, or the given default when it is missing. *)
Definition choice (a : list (string * string)) (k d : string) : string :=
  match obj_get a k with
  | Some s => if String.eqb s "" then d else s
  | None => d
  end.

Definition activity_of (source_type : string) (a : list (string * string)) : Activity :=
  if String.eqb source_type "electricity" then
    Electricity (numeric a "kwh_consumed") (choice a "region" "us_average")
                (numeric a "renewable_percentage")
  else if String.eqb source_type "fuel" then
    Fuel (choice a "fuel_type" "gasoline") (numeric a "quantity") (choice a "unit" "liters")
  else if String.eqb source_type "travel" then
    Travel (choice a "transport_mode" "car_petrol") (numeric a "distance_km")
           (count a "passengers")
  else Other (numeric a "energy_consumed").

(** The endpoint and the payload of each variant. *)
Definition endpoint_of (v : Activity) : string :=
  match v with
  | Electricity _ _ _ => "/calculate/electricity"
  | Fuel _ _ _ => "/calculate/fuel"
  | Travel _ _ _ => "/calculate/travel"
  | Other _ => "/calculate/electricity"
  end.

Definition payload_of (v : Activity) : JsVal :=
  match v with
  | Electricity kwh region renewable =>
      VObj [ ("kwh_consumed", VNum kwh); ("region", VStr region);
             ("renewable_percentage", VNum renewable) ]
  | Fuel fuel_type quantity unit =>
      VObj [ ("fuel_type", VStr fuel_type); ("quantity", VNum quantity);
             ("unit", VStr unit) ]
  | Travel mode distance passengers =>
      VArr [ VObj [ ("transport_mode", VStr mode); ("distance_km", VNum distance);
                    ("passengers", VNum passengers) ] ]
  | Other energy =>
      VObj [ ("kwh_consumed", VNum energy); ("region", VStr "us_average") ]
  end.

(** ** The source a new emission record is attributed to *)

(** Where emission records are posted. *)
Definition emissions_url (company : Company.t) : string :=
  API ++ "/companies/" ++ Company.id company ++ "/emissions".

(** As stated: the id of the first top source, or the default when the list
    is empty. *)
Definition stated_source_id (sources : list Source.t) : JsVal :=
  match sources with
  | s :: _ => match Source.id s with
              | Some i => VStr i
              | None => VUndefined
              end
  | [] => VStr "default-source-id"
  end.

(** As stated, for every record the tracker posts. *)
Definition record_source_as_stated : Prop :=
  forall company calcNet addNet summaryNet w req,
    req ∈ Client.emitted
            (EmissionsTracker.handleCalculateEmissions company calcNet addNet summaryNet) w ->
    url req = emissions_url company ->
    exists b, body req = Some b /\
              EmissionsTracker.prop b "source_id"
              = stated_source_id (Tracker.emissionSources (tracker w)).

(** As amended: the default also stands in for a first source whose id is
    missing or empty. *)
Definition attributed_source_id (sources : list Source.t) : string :=
  match sources with
  | s :: _ => match Source.id s with
              | Some i => if String.eqb i "" then "default-source-id" else i
              | None => "default-source-id"
              end
  | [] => "default-source-id"
  end.

(** ** Who writes the persisted session *)

(** An event that populates the session: a login or a registration that
    the server answers with success. *)
Definition populates (ev : Client.Event) (w : World) : Prop :=
  match ev with
  | Client.LoginSubmit (Resolved r) | Client.SignupSubmit (Resolved r) =>
      Client.screen w = Client.AuthScreen /\ ok r = true
  | _ => False
  end.

(** An event that clears the session, as stated: a logout, or a 401 answer
    to a call that carries the token. *)
Definition clears (ev : Client.Event) (w : World) : Prop :=
  match ev with
  | Client.Logout => True
  | Client.AuthenticatedEffect (Resolved r) | Client.Refresh (Resolved r) => status r = 401
  | _ => False
  end.

(** The third writer: the provider mounts on saved entries of which the
    user or the tenant is not JSON. *)
Definition discards_unreadable (ev : Client.Event) (w : World) : Prop :=
  ev = Client.ProviderMount /\
  exists u t,
    localStorage w !! "climabill_user" = Some u /\
    localStorage w !! "climabill_tenant" = Some t /\
    (JSON_parse u = None \/ JSON_parse t = None).

(** As stated: the session changes only under its two writers. *)
Definition two_writers : Prop :=
  forall ev w, Client.session (Client.step ev w) <> Client.session w ->
               populates ev w \/ clears ev w.

End Stated.
End Spec.

(* ===================================================================== *)
(** * A session on the reference host *)
(* ===================================================================== *)

Module Scenario.

#[local] Existing Instance RefHost.host.

(** The JSON text of an object whose values are plain strings. *)
Definition quoted (s : string) : string :=
  String RefHost.dquote (s ++ String RefHost.dquote "").

Definition text_object (fields : list (string * string)) : string :=
  "{" ++ String.concat "," ((fun kv => quoted kv.1 ++ ":" ++ quoted kv.2) <$> fields) ++ "}".

Definition alpha : Company.t :=
  {| Company.id := "c-alpha"; Company.name := "Alpha Tech Solutions HQ";
     Company.industry := "saas" |}.

Definition admin : string :=
  text_object [("id", "u-1"); ("email", "admin@alpha-tech.com")].

Definition alpha_tenant : string :=
  text_object [("id", "t-alpha"); ("name", "Alpha Tech Solutions")].

Definition respond {A} (code : Z) (b : A) : FetchResult A :=
  Resolved {| status := code; json_body := Some b |}.

(** What the server answers to a login. *)
Definition login_ok : FetchResult AuthData.t :=
  respond 200 {| AuthData.access_token := Some "tok-alpha";
                 AuthData.user := Some admin;
                 AuthData.tenant := Some alpha_tenant;
                 AuthData.company := None;
                 AuthData.detail := None |}.

(** What the server answers to a registration. *)
Definition register_ok : FetchResult AuthData.t :=
  respond 200 {| AuthData.access_token := Some "tok-alpha";
                 AuthData.user := Some admin;
                 AuthData.tenant := Some alpha_tenant;
                 AuthData.company := Some alpha;
                 AuthData.detail := None |}.

Definition wrong_password : FetchResult AuthData.t :=
  respond 401 {| AuthData.access_token := None; AuthData.user := None;
                 AuthData.tenant := None; AuthData.company := None;
                 AuthData.detail := Some "Invalid email or password" |}.

Definition expired {A} : FetchResult A := Resolved {| status := 401; json_body := None |}.

(** The page after the provider has mounted on an empty storage. *)
Definition fresh : World := Client.run [Client.ProviderMount] (Client.initial ∅).

(** The login form filled in. *)
Definition typed : World :=
  Client.run [ Client.LoginInput "email" "admin@alpha-tech.com";
               Client.LoginInput "password" "admin123" ] fresh.

(** Signed in, with the company of the user loaded. *)
Definition signed_in : World :=
  Client.run [ Client.LoginSubmit login_ok;
               Client.AuthenticatedEffect (respond 200 [alpha]) ] typed.

(** The sign-up form filled in. *)
Definition signing_up : World :=
  Client.run [ Client.SignupInput "email" "admin@alpha-tech.com";
               Client.SignupInput "password" "admin123";
               Client.SignupInput "first_name" "Ada";
               Client.SignupInput "last_name" "Admin";
               Client.SignupInput "company_name" "Alpha Tech Solutions";
               Client.SignupInput "employee_count" "250";
               Client.SignupInput "annual_revenue" "1250000.50";
               Client.SignupInput "headquarters_location" "Berlin";
               Client.ComplianceToggle "ghg_protocol" ] fresh.

(** A storage whose saved user is not JSON. *)
Definition unreadable : World :=
  Client.initial {[ "climabill_token" := "tok-alpha";
                    "climabill_user" := "{";
                    "climabill_tenant" := alpha_tenant ]}.

(** The tracker with its top sources loaded: one with an id, one without. *)
Definition with_source : World :=
  Client.step (Client.SourcesLoad (respond 200 [ {| Source.id := Some "src-1" |} ])) signed_in.

Definition with_unnamed_source : World :=
  Client.step (Client.SourcesLoad (respond 200 [ {| Source.id := None |} ])) signed_in.

Definition calculated : FetchResult Calc.t :=
  respond 200 {| Calc.co2_equivalent_kg := Some (of_Z 386);
                 Calc.calculation_details :=
                   Some {| Calc.emission_factor := Some (of_Z 2) |} |}.

Definition accepted : FetchResult json := respond 200 "{}".

(** The initiative form with a cost of 200 and savings of 50. *)
Definition costed : World :=
  Client.run [ Client.InitiativeInput "initiative_name" "LED lighting";
               Client.InitiativeInput "implementation_cost" "200";
               Client.InitiativeInput "annual_savings" "50";
               Client.InitiativeInput "annual_co2_reduction" "12" ] signed_in.

(** The same with a cost of 0. *)
Definition free_of_cost : World :=
  Client.step (Client.InitiativeInput "implementation_cost" "0") costed.

(** The server side: a toy signature, two tenants. *)
Definition mac (secret : string) (c : Server.Claims) : string :=
  secret ++ ":" ++ Server.user_id c ++ ":" ++ Server.tenant_id c.

Definition beta_token : Server.Token := Server.issue "s3cret" mac 86400 "u-2" "beta" 1000.

Definition database : list Server.DomainRecord :=
  [ {| Server.rid := "e-1"; Server.owner := "alpha"; Server.fields := "1200 kg" |};
    {| Server.rid := "e-2"; Server.owner := "beta"; Server.fields := "75 kg" |} ].

(** The record the tracker posts for a calculation answered by
    [calculated], on the untouched form. *)
Definition record_request (source_id : string) : Request :=
  {| url := "https://climabill.example/api/companies/c-alpha/emissions";
     method := "POST";
     headers := {[ "Content-Type" := "application/json" ]};
     body := Some (VObj
       [ ("source_id", VStr source_id);
         ("period_start", VStr "2024-12-03T00:00:00.000Z");
         ("period_end", VStr "2024-12-03T00:00:00.000Z");
         ("co2_equivalent_kg", VNum (of_Z 386));
         ("activity_data", VObj []);
         ("emission_factor", VNum (of_Z 2));
         ("data_quality", VStr "estimated") ]) |}.

End Scenario.

(* ===================================================================== *)
(** * Relations between browser states *)
(* ===================================================================== *)

Section Relations.
Context `{Host}.

(** [m] takes every state to a state related to it by [R], whether it
    completes or throws. *)
Definition stable (R : World -> World -> Prop) {A} (m : M A) : Prop :=
  forall w, R w (exec m w).

(** The requests added since [w] all lack an [Authorization] header. *)
Definition adds_anonymous (w w' : World) : Prop :=
  exists l, requests w' = (requests w ++ l)%list /\
            Forall (fun req => headers req !! "Authorization" = None) l.

(** The three session entries are as they were. *)
Definition same_session (w w' : World) : Prop := Client.session w' = Client.session w.

(** The three session entries are all there. *)
Definition all_present (s : option string * option string * option string) : Prop :=
  is_Some s.1.1 /\ is_Some s.1.2 /\ is_Some s.2.

End Relations.

(* ===================================================================== *)
(** * Running handlers *)
(* ===================================================================== *)

Section Running.
Context `{Host}.

Lemma exec_bind {A B} (m : M A) (k : A -> M B) (w : World) :
  exec (m ≫= k) w =
  match m w with
  | (Ok a, w') => exec (k a) w'
  | (Throw _, w') => w'
  end.
Proof.
  unfold exec, mbind, M_bind, bind. destruct (m w) as [[a|e] w']; reflexivity.
Qed.

Lemma exec_try_catch {A} (m : M A) (h : JsError -> M A) (w : World) :
  exec (try_catch m h) w =
  match m w with
  | (Ok _, w') => w'
  | (Throw e, w') => exec (h e) w'
  end.
Proof.
  unfold exec, try_catch. destruct (m w) as [[a|e] w']; reflexivity.
Qed.

End Running.

(** Unfold the plumbing of a handler applied to a state. *)
Ltac run_monad :=
  unfold exec, mbind, M_bind, mret, M_ret, bind, ret, throw, try_catch, try_finally,
         gets, modify, getItem, setItem, removeItem, alert, console_error in *.

(* ===================================================================== *)
(** * The authenticated fetch and the session *)
(* ===================================================================== *)

Section Session.
Context `{Host}.


(** C10. [authenticatedFetch] called while the token cell is [null] throws
    'No authentication token available'; it sends no request and leaves the
    whole browser state, the session included, as it was. *)
Theorem authenticatedFetch_without_token {A} (u : string) (options : Options)
    (net : FetchResult A) (w : World) :
  AuthCtx.token (authCtx w) = None ->
  AuthContext.authenticatedFetch u options net w
  = (Throw (Error "No authentication token available"), w).
Proof.
  intros Htok. unfold AuthContext.authenticatedFetch. run_monad.
  rewrite Htok. reflexivity.
Qed.


End Session.

(* ===================================================================== *)
(** * Properties that every step of a handler maintains *)
(* ===================================================================== *)

Section Frame.
Context `{Host}.
Variable R : World -> World -> Prop.
Context `{!PreOrder R}.

#[local] Abbreviation stable := (stable R).

Lemma stable_ret {A} (a : A) : stable (mret a).
Proof. intros w. unfold exec; simpl. reflexivity. Qed.

Lemma stable_throw {A} (e : JsError) : stable (throw e : M A).
Proof. intros w. unfold exec; simpl. reflexivity. Qed.

Lemma stable_gets {A} (f : World -> A) : stable (gets f).
Proof. intros w. unfold exec; simpl. reflexivity. Qed.

Lemma stable_modify (f : World -> World) : (forall w, R w (f w)) -> stable (modify f).
Proof. intros Hf w. unfold exec; simpl. apply Hf. Qed.

Lemma stable_bind {A B} (m : M A) (k : A -> M B) :
  stable m -> (forall a, stable (k a)) -> stable (m ≫= k).
Proof.
  intros Hm Hk w. rewrite exec_bind. specialize (Hm w). unfold exec in Hm.
  destruct (m w) as [[a|e] w']; simpl in Hm; [|exact Hm].
  etransitivity; [exact Hm | apply Hk].
Qed.

Lemma stable_try_catch {A} (m : M A) (h : JsError -> M A) :
  stable m -> (forall e, stable (h e)) -> stable (try_catch m h).
Proof.
  intros Hm Hh w. rewrite exec_try_catch. specialize (Hm w). unfold exec in Hm.
  destruct (m w) as [[a|e] w']; simpl in Hm; [exact Hm|].
  etransitivity; [exact Hm | apply Hh].
Qed.

Lemma stable_try_finally {A} (m : M A) (f : M unit) :
  stable m -> stable f -> stable (try_finally m f).
Proof.
  intros Hm Hf w. unfold exec, try_finally.
  specialize (Hm w). unfold exec in Hm.
  destruct (m w) as [r w']; simpl in Hm.
  specialize (Hf w'). unfold exec in Hf.
  destruct (f w') as [[[]|e] w'']; simpl in *; etransitivity; eauto.
Qed.

Lemma stable_response_json {A} (r : Response A) : stable (response_json r).
Proof.
  unfold response_json. destruct (json_body r); [apply stable_ret | apply stable_throw].
Qed.

End Frame.

(** Take a handler apart along its structure; what remains are the
    elementary updates. *)
Ltac stable_step :=
  lazymatch goal with
  | |- stable _ (mbind _ _) => apply stable_bind; try apply _; [| intros ?]
  | |- stable _ (try_catch _ _) => apply stable_try_catch; try apply _; [| intros ?]
  | |- stable _ (try_finally _ _) => apply stable_try_finally; try apply _
  | |- stable _ (mret _) => apply stable_ret; try apply _
  | |- stable _ (throw _) => apply stable_throw; try apply _
  | |- stable _ (gets _) => apply stable_gets; try apply _
  | |- stable _ (getItem _) => apply stable_gets; try apply _
  | |- stable _ (response_json _) => apply stable_response_json; try apply _
  | |- stable _ (if ?b then _ else _) => destruct b
  | |- stable _ (match ?x with _ => _ end) => destruct x
  end.

(* ===================================================================== *)
(** * Requests added to the trace *)
(* ===================================================================== *)

Section Emitted.
Context `{Host}.

Lemma drop_own_prefix {A} (l k : list A) : drop (length l) (l ++ k)%list = k.
Proof. by rewrite drop_app_length. Qed.

Lemma drop_own_prefix0 {A} (l : list A) : drop (length l) l = [].
Proof. by rewrite drop_all. Qed.

End Emitted.

(** Unfold the handlers down to the elementary operations. *)
Create HintDb handlers.
#[global] Hint Unfold
  AuthContext.setUser AuthContext.setTenant AuthContext.setToken AuthContext.setLoading
  AuthContext.parse AuthContext.login AuthContext.logout AuthContext.useEffect_mount
  AuthContext.authenticatedFetch
  App.setCurrentCompany App.setCompaniesLoading App.fetchUserCompanies
  App.useEffect_isAuthenticated App.handleAuthSuccess
  Auth.setLoading Auth.setError Auth.handleLogin Auth.handleSignup
  Auth.setLoginData Auth.setSignupData Auth.handleLoginChange Auth.handleSignupChange
  Auth.handleComplianceChange
  EmissionsTracker.onChange_source_type EmissionsTracker.onChange_period_start
  EmissionsTracker.onChange_period_end EmissionsTracker.onChange_data_quality
  FinancialImpact.onChange
  Navbar.handleLogout
  EmissionsTracker.setEmissionSources EmissionsTracker.setSummary
  EmissionsTracker.setLoading EmissionsTracker.setFormData
  EmissionsTracker.fetchEmissionSources EmissionsTracker.fetchSummary
  EmissionsTracker.updateActivityData EmissionsTracker.toISOString
  EmissionsTracker.handleCalculateEmissions
  FinancialImpact.setFinancialData FinancialImpact.setInitiatives
  FinancialImpact.setLoading FinancialImpact.setShowAddInitiative
  FinancialImpact.setNewInitiative FinancialImpact.fetchFinancialData
  FinancialImpact.fetchInitiatives FinancialImpact.handleAddInitiative
  Dashboard.setDashboardData Dashboard.setLoading Dashboard.setError
  Dashboard.fetchDashboardData
  CarbonMarketplace.fetchMarketplaceData CarbonMarketplace.fetchCertificates
  CarbonMarketplace.handlePurchase CarbonMarketplace.handleRetire
  SupplyChainVisibility.get_json SupplyChainVisibility.fetchDashboardData
  SupplyChainVisibility.fetchSuppliers SupplyChainVisibility.fetchEmissions
  SupplyChainVisibility.handleAddSupplier SupplyChainVisibility.handleAddEmission
  AIChat.handleSendMessage
  fetch response_json getItem setItem removeItem alert console_error
  : handlers.

(** Run a handler on a state, splitting on what the network answered. *)
Ltac split_cases :=
  repeat (match goal with
          | |- context [match ?x with _ => _ end] => is_var x; destruct x
          | |- context [if ok ?r then _ else _] => destruct (ok r) eqn:?
          | |- context [match json_body ?r with _ => _ end] =>
              destruct (json_body r) eqn:?
          | |- context [match ?x with _ => _ end] =>
              lazymatch x with
              | context [match _ with _ => _ end] => fail
              | _ => destruct x eqn:?
              end
          end; simpl).

Ltac trace := rewrite <- ?app_assoc, ?drop_own_prefix, ?drop_own_prefix0; simpl.

(* ===================================================================== *)
(** * The return on investment of an initiative *)
(* ===================================================================== *)

Section Initiative.
Context `{Host}.




End Initiative.

(* ===================================================================== *)
(** * The calculation request of the emissions tracker *)
(* ===================================================================== *)

Section Calculation.
Context `{Host}.

Lemma parseFloat_or_zero (a : list (string * string)) (k : string) :
  parseFloat (or_else (obj_get a k) "0") = Spec.numeric a k.
Proof.
  unfold Spec.numeric, or_else. destruct (obj_get a k) as [s|]; [|reflexivity].
  destruct (String.eqb s ""); reflexivity.
Qed.

Lemma parseInt_or_one (a : list (string * string)) (k : string) :
  parseInt (or_else (obj_get a k) "1") = Spec.count a k.
Proof.
  unfold Spec.count, or_else. destruct (obj_get a k) as [s|]; [|reflexivity].
  destruct (String.eqb s ""); reflexivity.
Qed.

Lemma requestBody_dispatch (fd : Tracker.FormData) :
  EmissionsTracker.requestBody fd
  = Spec.payload_of (Spec.activity_of (Tracker.source_type fd) (Tracker.activity_data fd)) /\
  EmissionsTracker.calculationEndpoint fd
  = Spec.endpoint_of (Spec.activity_of (Tracker.source_type fd) (Tracker.activity_data fd)).
Proof.
  unfold EmissionsTracker.requestBody, EmissionsTracker.calculationEndpoint,
    EmissionsTracker.calculationData, Spec.activity_of.
  destruct (String.eqb (Tracker.source_type fd) "electricity");
    [|destruct (String.eqb (Tracker.source_type fd) "fuel");
      [|destruct (String.eqb (Tracker.source_type fd) "travel")]];
    simpl; rewrite ?parseFloat_or_zero, ?parseInt_or_one; split; reflexivity.
Qed.

(** C5. Every submission of the emissions form first posts a calculation
    request chosen by [source_type] alone: electricity, fuel and travel each
    go to their own endpoint with their own fields (travel as a one-element
    list of trips), every other source type goes to [/calculate/electricity]
    with [energy_consumed] as [kwh_consumed] and region ['us_average'];
    a missing numeric field counts as 0 and a missing passenger count as 1. *)
Theorem calculation_request_by_source_type (company : Company.t)
    (calcNet : FetchResult Calc.t) (addNet summaryNet : FetchResult json) (w : World) :
  let fd := Tracker.formData (tracker w) in
  let v := Spec.activity_of (Tracker.source_type fd) (Tracker.activity_data fd) in
  exists rest,
    Client.emitted
      (EmissionsTracker.handleCalculateEmissions company calcNet addNet summaryNet) w
    = {| url := API ++ Spec.endpoint_of v;
         method := "POST";
         headers := {[ "Content-Type" := "application/json" ]};
         body := Some (Spec.payload_of v) |} :: rest.
Proof.
  intros fd v.
  destruct (requestBody_dispatch fd) as [Hb He]. fold v in Hb, He.
  rewrite <- Hb, <- He.
  unfold Client.emitted. autounfold with handlers. run_monad. simpl. fold fd.
  split_cases; trace; eexists; reflexivity.
Qed.

End Calculation.

(* ===================================================================== *)
(** * The source of a new emission record *)
(* ===================================================================== *)

Section Strings.

Lemma append_inv_head (s a b : string) : s ++ a = s ++ b -> a = b.
Proof. induction s as [|c s IH]; simpl; [done|]. intros E. apply IH. by inversion E. Qed.

End Strings.

Section SourceId.
Context `{Host}.

Lemma calculation_is_not_emissions (company : Company.t) (fd : Tracker.FormData) :
  API ++ EmissionsTracker.calculationEndpoint fd <> Spec.emissions_url company.
Proof.
  unfold Spec.emissions_url, EmissionsTracker.calculationEndpoint. intros E.
  apply append_inv_head in E.
  repeat match type of E with context [if ?b then _ else _] => destruct b end;
    discriminate.
Qed.

Lemma summary_is_not_emissions (company : Company.t) :
  API ++ "/companies/" ++ Company.id company ++ "/emissions/summary"
  <> Spec.emissions_url company.
Proof.
  unfold Spec.emissions_url. intros E.
  do 3 apply append_inv_head in E. discriminate.
Qed.

Lemma sourceId_attributed (sources : list Source.t) :
  EmissionsTracker.sourceId sources = Spec.attributed_source_id sources.
Proof. destruct sources as [|[[i|]] ?]; reflexivity. Qed.

(** C9, as amended. Every emission record the tracker posts carries as
    [source_id] the id of the first element of the fetched top-sources list
    when that element has a non-empty id, and the literal
    ['default-source-id'] when the list is empty or its first element has no
    id or an empty one; the source type chosen in the form plays no part. *)
Theorem record_source_is_first_top_source (company : Company.t)
    (calcNet : FetchResult Calc.t) (addNet summaryNet : FetchResult json)
    (w : World) (req : Request) :
  req ∈ Client.emitted
          (EmissionsTracker.handleCalculateEmissions company calcNet addNet summaryNet) w ->
  url req = Spec.emissions_url company ->
  method req = "POST" /\
  exists b,
    body req = Some b /\
    EmissionsTracker.prop b "source_id"
    = VStr (Spec.attributed_source_id (Tracker.emissionSources (tracker w))).
Proof.
  rewrite <- sourceId_attributed.
  pose proof (calculation_is_not_emissions company (Tracker.formData (tracker w))) as Hc.
  pose proof (summary_is_not_emissions company) as Hs.
  unfold Client.emitted. autounfold with handlers. run_monad. simpl.
  split_cases; trace; intros Hin Hurl;
    repeat (apply elem_of_cons in Hin as [->|Hin]; simpl in Hurl;
            [try (exfalso; auto; fail)|]);
    try (by apply elem_of_nil in Hin);
    (split; [reflexivity | eexists; split; reflexivity]).
Qed.

End SourceId.

(* ===================================================================== *)
(** * Signing in and signing up *)
(* ===================================================================== *)

Ltac run_handler := unfold Client.emitted; autounfold with handlers; run_monad; simpl.

Section SignIn.
Context `{Host}.

(** C6. The login handler sends one request, a POST to [/api/auth/login]
    with the e-mail address and the password URL-encoded in the query
    string. When the response is successful and returns an access token, a
    user and a tenant, these are stored in [localStorage] and
    authentication success is signalled: the provider takes them over. When
    the response is not OK, or no response arrives, nothing is stored, the
    provider is left as it was, and the form shows the server's error
    detail or a generic message. *)
Theorem login_stores_session_exactly_on_success (net : FetchResult AuthData.t) (w : World) :
  let d := AuthForm.loginData (authForm w) in
  let w' := exec (Auth.handleLogin App.handleAuthSuccess net) w in
  Client.emitted (Auth.handleLogin App.handleAuthSuccess net) w
  = [ {| url := API ++ "/auth/login?email=" ++ encodeURIComponent (LoginData.email d)
                    ++ "&password=" ++ encodeURIComponent (LoginData.password d);
         method := "POST";
         headers := {[ "Content-Type" := "application/json" ]};
         body := None |} ] /\
  (forall r tok u t c dt,
      net = Resolved r -> ok r = true ->
      json_body r = Some {| AuthData.access_token := Some tok; AuthData.user := Some u;
                            AuthData.tenant := Some t; AuthData.company := c;
                            AuthData.detail := dt |} ->
      localStorage w' !! "climabill_token" = Some tok /\
      localStorage w' !! "climabill_user" = Some (JSON_stringify u) /\
      localStorage w' !! "climabill_tenant" = Some (JSON_stringify t) /\
      AuthCtx.token (authCtx w') = Some tok /\
      AuthCtx.user (authCtx w') = Some u /\
      AuthCtx.tenant (authCtx w') = Some t /\
      AuthForm.error (authForm w') = "") /\
  (forall r,
      net = Resolved r -> ok r = false ->
      localStorage w' = localStorage w /\
      authCtx w' = authCtx w /\
      AuthForm.error (authForm w')
      = match json_body r with
        | Some e => or_else (AuthData.detail e) "Login failed"
        | None => "Network error. Please try again."
        end) /\
  (net = Rejected ->
      localStorage w' = localStorage w /\
      authCtx w' = authCtx w /\
      AuthForm.error (authForm w') = "Network error. Please try again.").
Proof.
  intros d w'. subst w'. split; [|split; [|split]].
  - unfold Auth.login_url. run_handler. fold d.
    split_cases; trace; reflexivity.
  - intros r tok u t c dt -> Hok Hbody. run_handler.
    rewrite Hok, Hbody. simpl. destruct c; simpl; repeat split; by simplify_map_eq.
  - intros r -> Hok. run_handler. rewrite Hok.
    destruct (json_body r); simpl; by destruct (authCtx w).
  - intros ->. run_handler. by destruct (authCtx w).
Qed.

(** C7. The sign-up handler sends one request, a POST to
    [/api/auth/register] whose body is the form's user and company fields
    with [employee_count] parsed as an integer and [annual_revenue] as a
    float. When the response is successful and returns an access token, a
    user, a tenant and a company, the token, the user, the tenant and the
    company id are stored in [localStorage] and authentication success is
    signalled: the provider and the application take them over. When the
    response is not OK, or no response arrives, nothing is stored. *)
Theorem signup_stores_session_exactly_on_success (net : FetchResult AuthData.t) (w : World) :
  let d := AuthForm.signupData (authForm w) in
  let w' := exec (Auth.handleSignup App.handleAuthSuccess net) w in
  (exists b,
     Client.emitted (Auth.handleSignup App.handleAuthSuccess net) w
     = [ {| url := API ++ "/auth/register";
            method := "POST";
            headers := {[ "Content-Type" := "application/json" ]};
            body := Some (VObj b) |} ] /\
     b = [ ("email", VStr (SignupData.email d));
           ("password", VStr (SignupData.password d));
           ("first_name", VStr (SignupData.first_name d));
           ("last_name", VStr (SignupData.last_name d));
           ("company_name", VStr (SignupData.company_name d));
           ("industry", VStr (SignupData.industry d));
           ("employee_count", VNum (parseInt (SignupData.employee_count d)));
           ("annual_revenue", VNum (parseFloat (SignupData.annual_revenue d)));
           ("headquarters_location", VStr (SignupData.headquarters_location d));
           ("compliance_standards", VArr (VStr <$> SignupData.compliance_standards d)) ]) /\
  (forall r tok u t c dt,
      net = Resolved r -> ok r = true ->
      json_body r = Some {| AuthData.access_token := Some tok; AuthData.user := Some u;
                            AuthData.tenant := Some t; AuthData.company := Some c;
                            AuthData.detail := dt |} ->
      localStorage w' !! "climabill_token" = Some tok /\
      localStorage w' !! "climabill_user" = Some (JSON_stringify u) /\
      localStorage w' !! "climabill_tenant" = Some (JSON_stringify t) /\
      localStorage w' !! "climabill_company_id" = Some (Company.id c) /\
      AuthCtx.token (authCtx w') = Some tok /\
      AuthCtx.user (authCtx w') = Some u /\
      AuthCtx.tenant (authCtx w') = Some t /\
      AppSt.currentCompany (app w') = Some c) /\
  (forall r,
      net = Resolved r -> ok r = false ->
      localStorage w' = localStorage w /\
      authCtx w' = authCtx w /\
      app w' = app w /\
      AuthForm.error (authForm w')
      = match json_body r with
        | Some e => or_else (AuthData.detail e) "Registration failed"
        | None => "Network error. Please try again."
        end) /\
  (net = Rejected ->
      localStorage w' = localStorage w /\
      authCtx w' = authCtx w /\
      app w' = app w).
Proof.
  intros d w'. subst w'. split; [|split; [|split]].
  - eexists. split; [|reflexivity]. run_handler. fold d.
    split_cases; trace; reflexivity.
  - intros r tok u t c dt -> Hok Hbody. run_handler.
    rewrite Hok, Hbody. simpl. repeat split; by simplify_map_eq.
  - intros r -> Hok. run_handler. rewrite Hok.
    destruct (json_body r); simpl; by destruct (authCtx w), (app w).
  - intros ->. run_handler. by destruct (authCtx w), (app w).
Qed.

End SignIn.

(* ===================================================================== *)
(** * Which calls carry the token *)
(* ===================================================================== *)

Section Bearer.
Context `{Host}.

#[local] Instance adds_anonymous_preorder : PreOrder adds_anonymous.
Proof.
  split.
  - intros w. exists []. by rewrite app_nil_r.
  - intros w1 w2 w3 (l1 & E1 & F1) (l2 & E2 & F2). exists (l1 ++ l2)%list.
    split; [by rewrite E2, E1, app_assoc | by apply Forall_app].
Qed.

Lemma anonymous_quiet (f : World -> World) :
  (forall w, requests (f w) = requests w) -> stable adds_anonymous (modify f).
Proof.
  intros Hf. apply stable_modify. intros w. exists [].
  by rewrite app_nil_r, Hf.
Qed.

Lemma anonymous_fetch {A} (u : string) (o : Options) (net : FetchResult A) :
  default ∅ (opt_headers o) !! "Authorization" = None ->
  stable adds_anonymous (fetch u o net).
Proof.
  intros Ho w. unfold fetch. run_monad. destruct net; simpl;
    (exists [request_of u o]; split; [reflexivity | by repeat constructor]).
Qed.

End Bearer.

Ltac anonymous :=
  autounfold with handlers;
  repeat first
    [ stable_step
    | apply anonymous_quiet; intros ?; reflexivity
    | apply stable_modify; intros ?; eexists [_]; split;
      [ reflexivity | repeat constructor; by simplify_map_eq ] ].

Section BearerFacts.
Context `{Host}.

Existing Instance adds_anonymous_preorder.

(** Whatever a view of the main screen does, the requests it sends carry no
    [Authorization] header. *)
Lemma views_send_no_token (company : Company.t) (ev : Client.Event) :
  stable adds_anonymous (Client.on_main company ev).
Proof.
  destruct ev; unfold Client.on_main; anonymous.
Qed.

(** The list of companies is asked for with the token. *)
Lemma companies_call_carries_token (net : FetchResult (list Company.t)) (w : World)
    (tok : string) :
  AuthCtx.token (authCtx w) = Some tok -> tok <> "" ->
  exists req,
    Client.emitted (App.fetchUserCompanies net) w = [req] /\
    url req = API ++ "/companies" /\
    headers req !! "Authorization" = Some ("Bearer " ++ tok).
Proof.
  intros Htok Hne. apply String.eqb_neq in Hne.
  run_handler. rewrite Htok, Hne. simpl.
  eexists. split; [split_cases; trace; reflexivity|].
  split; [reflexivity|]. simpl. by simplify_map_eq.
Qed.

End BearerFacts.

(* ===================================================================== *)
(** * Who writes the persisted session *)
(* ===================================================================== *)

Section Writers.
Context `{Host}.

#[local] Instance same_session_preorder : PreOrder same_session.
Proof.
  split; [by intros w|]. intros w1 w2 w3 E1 E2. unfold same_session in *. congruence.
Qed.

End Writers.

Ltac keeps_session :=
  autounfold with handlers;
  repeat first
    [ stable_step
    | apply stable_modify; intros ?; unfold same_session, Client.session; simpl;
      by simplify_map_eq ].

Section WriterFacts.
Context `{Host}.

Existing Instance same_session_preorder.

Lemma view_keeps_session (company : Company.t) (ev : Client.Event) :
  ev <> Client.Logout -> stable same_session (Client.on_main company ev).
Proof.
  intros Hev. destruct ev; try done; unfold Client.on_main; keeps_session.
Qed.

(** The entry point without authentication touches only the company id. *)
Lemma legacy_entry_keeps_session (company : Company.t) (net : FetchResult Company.t)
    (formData : CompanySetup.FormData) :
  stable same_session (LegacyApp.useEffect_mount net) /\
  stable same_session (LegacyApp.handleCompanyCreated company) /\
  stable same_session LegacyApp.handleNewCompany /\
  stable same_session
    (CompanySetup.handleSubmit formData LegacyApp.handleCompanyCreated net).
Proof.
  unfold LegacyApp.useEffect_mount, LegacyApp.fetchCompany,
    LegacyApp.handleCompanyCreated, LegacyApp.handleNewCompany,
    CompanySetup.handleSubmit.
  repeat split; keeps_session.
Qed.

Lemma typing_keeps_session (name value : string) :
  stable same_session (Auth.handleLoginChange name value) /\
  stable same_session (Auth.handleSignupChange name value) /\
  stable same_session (Auth.handleComplianceChange name).
Proof. repeat split; keeps_session. Qed.

Lemma login_writes_on_success (net : FetchResult AuthData.t) (w : World) :
  Client.session (exec (Auth.handleLogin App.handleAuthSuccess net) w) <> Client.session w ->
  (exists r, net = Resolved r /\ ok r = true) /\
  all_present (Client.session (exec (Auth.handleLogin App.handleAuthSuccess net) w)).
Proof.
  unfold all_present, Client.session. run_handler.
  destruct net as [|r]; simpl; [done|].
  destruct (ok r) eqn:Hok; simpl.
  - destruct (json_body r) as [a|]; simpl; [|done]. intros _.
    split; [by eexists|]. destruct (AuthData.company a); simpl;
      repeat split; by simplify_map_eq.
  - destruct (json_body r); simpl; done.
Qed.

Lemma signup_writes_on_success (net : FetchResult AuthData.t) (w : World) :
  Client.session (exec (Auth.handleSignup App.handleAuthSuccess net) w) <> Client.session w ->
  (exists r, net = Resolved r /\ ok r = true) /\
  all_present (Client.session (exec (Auth.handleSignup App.handleAuthSuccess net) w)).
Proof.
  unfold all_present, Client.session. run_handler.
  destruct net as [|r]; simpl; [done|].
  destruct (ok r) eqn:Hok; simpl.
  - destruct (json_body r) as [a|]; simpl; [|done]. intros _.
    split; [by eexists|]. destruct (AuthData.company a); simpl;
      repeat split; by simplify_map_eq.
  - destruct (json_body r); simpl; done.
Qed.

Lemma companies_call_clears_on_401 (net : FetchResult (list Company.t)) (w : World) :
  Client.session (exec (App.fetchUserCompanies net) w) <> Client.session w ->
  (exists r, net = Resolved r /\ status r = 401) /\
  Client.session (exec (App.fetchUserCompanies net) w) = (None, None, None).
Proof.
  unfold Client.session. run_handler.
  destruct (AuthCtx.token (authCtx w)) as [tok|]; simpl; [|done].
  destruct (String.eqb tok ""); simpl; [done|].
  destruct net as [|r]; simpl; [done|].
  destruct (status r =? 401) eqn:E; simpl.
  - intros _. split; [exists r; split; [done | lia]|]. by simplify_map_eq.
  - destruct (ok r); simpl; [|done].
    destruct (json_body r) as [[|c l]|]; simpl; try done.
    by simplify_map_eq.
Qed.

Lemma mount_clears_unreadable (w : World) :
  Client.session (exec AuthContext.useEffect_mount w) <> Client.session w ->
  Spec.discards_unreadable Client.ProviderMount w /\
  Client.session (exec AuthContext.useEffect_mount w) = (None, None, None).
Proof.
  unfold Spec.discards_unreadable, Client.session. run_handler.
  destruct (localStorage w !! "climabill_token") as [tk|] eqn:Et; simpl; [|by rewrite Et].
  destruct (localStorage w !! "climabill_user") as [u|] eqn:Eu; simpl;
    [|rewrite andb_false_r; simpl; by rewrite Et, Eu].
  destruct (localStorage w !! "climabill_tenant") as [t|] eqn:Ett; simpl;
    [|rewrite andb_false_r; simpl; by rewrite Et, Eu, Ett].
  destruct (negb (tk =? "")%string && negb (u =? "")%string && negb (t =? "")%string);
    simpl; [|by rewrite Et, Eu, Ett].
  unfold AuthContext.parse.
  destruct (JSON_parse u) as [ju|] eqn:Pu; simpl.
  - destruct (JSON_parse t) as [jt|] eqn:Pt; simpl; [by rewrite Et, Eu, Ett|].
    intros _. split; [|by simplify_map_eq].
    split; [done|]. exists u, t. auto.
  - intros _. split; [|by simplify_map_eq].
    split; [done|]. exists u, t. auto.
Qed.

Lemma logout_click_clears (w : World) :
  Client.session (exec Navbar.handleLogout w) = (None, None, None).
Proof. unfold Client.session. run_handler. by simplify_map_eq. Qed.

(** C4, as amended. The token, user and tenant entries of [localStorage]
    change only when a login or a registration succeeds, which fills all
    three, or when they are cleared, which happens on a logout, on a 401
    answer to a call that carries the token, and when the provider mounts
    on a saved user or tenant that is not JSON; no other event of the client
    touches them. *)
Theorem session_writers (ev : Client.Event) (w : World) :
  Client.session (Client.step ev w) <> Client.session w ->
  (Spec.populates ev w /\ all_present (Client.session (Client.step ev w))) \/
  ((Spec.clears ev w \/ Spec.discards_unreadable ev w) /\
   Client.session (Client.step ev w) = (None, None, None)).
Proof.
  unfold Client.step.
  assert (Hkeep : forall m : M unit, stable same_session m ->
            Client.session (exec m w) <> Client.session w -> False).
  { intros m Hm Hne. apply Hne, Hm. }
  assert (Hidle : Client.session (exec (mret tt : M unit) w) <> Client.session w -> False).
  { intros Hne. by apply Hne. }
  destruct ev; cbn [Client.handler].
  1: { intros Hne. right. destruct (mount_clears_unreadable w Hne) as [Hd Hs]. auto. }
  1: { unfold App.useEffect_isAuthenticated. rewrite exec_bind. simpl.
       destruct (AuthContext.isAuthenticated w &&
                 negb (bool_decide (is_Some (AppSt.currentCompany (app w)))));
         [|intros Hne; by destruct (Hidle Hne)].
       intros Hne. right.
       destruct (companies_call_clears_on_401 net w Hne) as [(r & -> & H401) Hs].
       split; [left; exact H401 | exact Hs]. }
  all: destruct (Client.screen w) as [| | |c] eqn:Hscreen; intros Hne.
  all: try (by destruct (Hidle Hne)).
  all: try (exfalso; revert Hne; apply Hkeep;
            first [ apply view_keeps_session; discriminate
                  | eapply (proj1 (typing_keeps_session _ _))
                  | eapply (proj1 (proj2 (typing_keeps_session _ _)))
                  | eapply (proj2 (proj2 (typing_keeps_session _ ""))) ]).
  all: try (right;
            destruct (companies_call_clears_on_401 _ _ Hne) as [(r & -> & H401) Hs];
            split; [left; exact H401 | exact Hs]).
  all: try (left;
            destruct (login_writes_on_success _ _ Hne) as [(r & -> & Hok) Hs];
            split; [split; done | exact Hs]).
  all: try (left;
            destruct (signup_writes_on_success _ _ Hne) as [(r & -> & Hok) Hs];
            split; [split; done | exact Hs]).
  right. split; [by left | apply logout_click_clears].
Qed.

End WriterFacts.

(* ===================================================================== *)
(** * Cross-tenant isolation *)
(* ===================================================================== *)

Section Isolation.
Variable secret : string.
Variable mac : string -> Server.Claims -> string.

#[local] Abbreviation verify := (Server.verify secret mac).
#[local] Abbreviation authorize := (Server.authorize secret mac).
#[local] Abbreviation handle := (Server.handle secret mac).
#[local] Abbreviation serve := (Server.serve secret mac).
#[local] Abbreviation credential_tenant := (Server.credential_tenant secret mac).
#[local] Abbreviation isolated := (Server.isolated secret mac).

(** A token verifies to what it was issued for, until it expires. *)
Lemma verify_issue (lifetime : Z) (user tenant : string) (issued now : Z) :
  now <= issued + lifetime ->
  verify now (Server.issue secret mac lifetime user tenant issued)
  = Some {| Server.user_id := user; Server.tenant_id := tenant;
            Server.expiry := issued + lifetime |}.
Proof.
  intros Hnow. unfold Server.verify, Server.issue. simpl.
  rewrite String.eqb_refl. simpl.
  by destruct (Z.leb_spec now (issued + lifetime)); [|lia].
Qed.

Lemma verify_expired (c : Server.Claims) (signature : string) (now : Z) :
  Server.expiry c < now -> verify now (Server.Signed c signature) = None.
Proof.
  intros Hnow. unfold Server.verify.
  destruct (Z.leb_spec now (Server.expiry c)); [lia|]. by rewrite andb_false_r.
Qed.

Lemma authorize_context (policy : Server.Policy) (now : Z) (auth : option Server.Token)
    (path : option string) (ctx : Server.Context) :
  authorize policy now auth path = inr ctx ->
  exists t c, auth = Some t /\ verify now t = Some c /\
              Server.ctx_tenant ctx = Server.tenant_id c /\
              (forall a, path = Some a -> a = Server.tenant_id c).
Proof.
  unfold Server.authorize. destruct auth as [t|]; [|done].
  destruct (verify now t) as [c|] eqn:Hv; [|done].
  destruct path as [a|]; simpl.
  - destruct (String.eqb a (Server.tenant_id c)) eqn:E; [|by destruct policy].
    intros [= <-]. exists t, c. repeat split; try done.
    intros a' [= <-]. by apply String.eqb_eq.
  - intros [= <-]. exists t, c. repeat split; done.
Qed.

Lemma owned_by_spec (tenant : string) (r : Server.DomainRecord) :
  Server.owned_by tenant r = true <-> Server.owner r = tenant.
Proof. unfold Server.owned_by. apply String.eqb_eq. Qed.

Lemma is_record_owned (tenant id : string) (r : Server.DomainRecord) :
  Server.is_record tenant id r = true -> Server.owner r = tenant.
Proof.
  unfold Server.is_record. intros E. apply andb_true_iff in E as [E _].
  by apply owned_by_spec.
Qed.

(** A domain service touches and changes only records of the tenant in its
    context. *)
Lemma service_scoped (ctx : Server.Context) (op : Server.Op) (db : list Server.DomainRecord) :
  let '(_, db', t) := Server.service ctx op db in
  (forall r, r ∈ t -> Server.owner r = Server.ctx_tenant ctx) /\
  (forall r, Server.owner r <> Server.ctx_tenant ctx -> r ∈ db' <-> r ∈ db).
Proof.
  set (T := Server.ctx_tenant ctx).
  assert (Hrec : forall id r,
            r ∈ filter (fun r => Server.is_record T id r = true) db -> Server.owner r = T).
  { intros id r Hr. apply list_elem_of_filter in Hr as [Hr _]. by apply is_record_owned in Hr. }
  destruct op as [|id|id data claimed|id data claimed|id]; simpl; fold T.
  - split; [|done]. intros r Hr. apply list_elem_of_filter in Hr as [Hr _].
    by apply owned_by_spec.
  - destruct (filter _ db) as [|r0 rs] eqn:E; simpl; (split; [|done]).
    + intros r Hr. by apply elem_of_nil in Hr.
    + intros r Hr. apply (Hrec id). by rewrite E.
  - split.
    + intros r Hr. apply list_elem_of_singleton in Hr. by subst r.
    + intros r Hr. rewrite elem_of_app, list_elem_of_singleton. split; [|by left].
      intros [Hin| ->]; [done|]. by destruct Hr.
  - destruct (filter _ db) as [|r0 rs] eqn:E; simpl; (split; [|try done]).
    + intros r Hr. by apply elem_of_nil in Hr.
    + intros r Hr. apply (Hrec id). by rewrite E.
    + intros r Hr. rewrite list_elem_of_fmap. split.
      * intros (x & -> & Hx).
        destruct (Server.is_record T id x) eqn:Ex; [|done].
        apply is_record_owned in Ex. by destruct Hr.
      * intros Hin. exists r. split; [|done].
        destruct (Server.is_record T id r) eqn:Er; [|done].
        apply is_record_owned in Er. by destruct Hr.
  - destruct (filter _ db) as [|r0 rs] eqn:E; simpl; (split; [|try done]).
    + intros r Hr. by apply elem_of_nil in Hr.
    + intros r Hr. apply (Hrec id). by rewrite E.
    + intros r Hr. rewrite list_elem_of_filter. split; [by intros [_ ?]|].
      intros Hin. split; [|done].
      destruct (Server.is_record T id r) eqn:Er; [|done].
      apply is_record_owned in Er. by destruct Hr.
Qed.

Lemma handle_isolated (policy : Server.Policy) (now : Z) (req : Server.Request)
    (db : list Server.DomainRecord) :
  isolated now req db (handle policy now req db).
Proof.
  unfold Server.isolated, Server.handle.
  destruct (Server.route req) as [| |path op]; simpl;
    try (split; [intros r Hr; by apply elem_of_nil in Hr | done]).
  destruct (authorize policy now (Server.authorization req) path) as [f|ctx] eqn:Ha; simpl.
  { split; [intros r Hr; by apply elem_of_nil in Hr | done]. }
  apply authorize_context in Ha as (t & c & Hauth & Hv & Hctx & _).
  assert (Hcred : credential_tenant now req = Some (Server.ctx_tenant ctx)).
  { unfold Server.credential_tenant. rewrite Hauth. simpl. rewrite Hv. simpl. by rewrite Hctx. }
  pose proof (service_scoped ctx op db) as Hs.
  destruct (Server.service ctx op db) as [[rp db'] tc]. simpl.
  destruct Hs as [Ht Hw]. rewrite Hcred. split.
  - intros r Hr. by rewrite (Ht r Hr).
  - intros r Hr. apply Hw. intros E. apply Hr. by rewrite E.
Qed.

Lemma serve_isolated (policy : Server.Policy) (reqs : list (Z * Server.Request))
    (db : list Server.DomainRecord) :
  Server.all_isolated secret mac reqs db (serve policy reqs db).
Proof.
  revert db. induction reqs as [|[now req] reqs IH]; intros db; simpl; [done|].
  split; [apply handle_isolated | apply IH].
Qed.

(** C1. A request whose path names company [a] while its credential
    verifies for another tenant is rejected by the authorizer, with
    Forbidden, or with NotFound under the collapsing policy, and no domain
    service is invoked: nothing is read and the store is unchanged.
    Consequently, along every execution, whatever identifiers the paths and
    bodies of the requests carry, each request reads and writes only records
    of the tenant its credential binds, and leaves the records of every
    other tenant as they were. *)
Theorem cross_tenant_isolation (policy : Server.Policy) (now : Z) (t : Server.Token)
    (c : Server.Claims) (a : string) (op : Server.Op) (db : list Server.DomainRecord) :
  verify now t = Some c ->
  a <> Server.tenant_id c ->
  let o := handle policy now
             {| Server.authorization := Some t;
                Server.route := Server.Scoped (Some a) op |} db in
  (Server.reply o
   = Server.Failed match policy with
                   | Server.Distinguish => Server.Forbidden
                   | Server.Collapse => Server.NotFound
                   end /\
   Server.invoked o = [] /\ Server.touched o = [] /\ Server.store o = db) /\
  (forall reqs db0, Server.all_isolated secret mac reqs db0 (serve policy reqs db0)).
Proof.
  intros Hv Hne o. split; [|intros; apply serve_isolated].
  subst o. unfold Server.handle, Server.authorize. simpl. rewrite Hv. simpl.
  apply String.eqb_neq in Hne. rewrite Hne. by destruct policy.
Qed.

End Isolation.

(* ===================================================================== *)
(** * The statements on the reference host *)
(* ===================================================================== *)

Section OnTheReferenceHost.

#[local] Existing Instance RefHost.host.

Lemma authenticatedFetch_without_token_witness :
  AuthCtx.token (authCtx Scenario.fresh) = None /\
  AuthContext.authenticatedFetch (A := list Company.t)
    "https://climabill.example/api/companies" no_options Scenario.expired Scenario.fresh
  = (Throw (Error "No authentication token available"), Scenario.fresh).
Proof.
  split; [reflexivity|].
  apply (authenticatedFetch_without_token (H := RefHost.host)). reflexivity.
Defined.


Lemma session_writers_witness :
  Client.session (Client.step Client.Logout Scenario.signed_in)
  <> Client.session Scenario.signed_in /\
  (Spec.clears Client.Logout Scenario.signed_in /\
   Client.session (Client.step Client.Logout Scenario.signed_in) = (None, None, None)).
Proof.
  assert (Hne : Client.session (Client.step Client.Logout Scenario.signed_in)
                <> Client.session Scenario.signed_in).
  { vm_compute. discriminate. }
  split; [exact Hne|].
  destruct (session_writers (H := RefHost.host) Client.Logout Scenario.signed_in Hne)
    as [[[] _] | [_ Hs]].
  split; [exact I | exact Hs].
Defined.

(** The provider, mounting on a saved user that is not JSON, clears the
    three entries, though it is neither a logout nor a 401. *)
Lemma session_cleared_on_mount :
  Client.session Scenario.unreadable
  = (Some "tok-alpha", Some "{", Some Scenario.alpha_tenant) /\
  Client.session (Client.step Client.ProviderMount Scenario.unreadable) = (None, None, None) /\
  ~ (Spec.populates Client.ProviderMount Scenario.unreadable \/
     Spec.clears Client.ProviderMount Scenario.unreadable) /\
  ~ Spec.two_writers.
Proof.
  split; [vm_compute; reflexivity|]. split; [vm_compute; reflexivity|].
  split; [by intros [[]|[]]|].
  intros Hc. destruct (Hc Client.ProviderMount Scenario.unreadable) as [[]|[]].
  vm_compute. discriminate.
Qed.


(** With a cost of 0 the request is sent all the same, and the value
    computed for [roi_percentage] is infinite. *)
Example zero_cost_is_posted :
  exists req rest b,
    Client.emitted
      (Client.handler (Client.AddInitiative Scenario.accepted (Scenario.respond 200 [])
                         Scenario.accepted) Scenario.free_of_cost)
      Scenario.free_of_cost = req :: rest /\
    body req = Some b /\
    EmissionsTracker.prop b "roi_percentage" = VNum Infinity.
Proof. vm_compute. eexists _, _, _. repeat split; reflexivity. Qed.

(** A cost other than zero is needed for a finite value and does not by
    itself give one: with the savings left empty the value is [NaN]. *)
Example empty_savings_is_not_a_number :
  isZero (parseFloat "200") = false /\
  isNaN (parseFloat "200") = false /\
  mul (div (parseFloat "") (parseFloat "200")) (of_Z 100) = NaN.
Proof. repeat split; vm_compute; reflexivity. Qed.

Lemma record_request_emitted (w : World) (source_id : string) :
  Client.emitted
    (EmissionsTracker.handleCalculateEmissions Scenario.alpha Scenario.calculated
       Scenario.accepted Scenario.accepted) w
  = [ request_of "https://climabill.example/api/calculate/electricity"
        (post_json (VObj [ ("kwh_consumed", VNum pos_zero); ("region", VStr "us_average");
                           ("renewable_percentage", VNum pos_zero) ]));
      Scenario.record_request source_id;
      request_of "https://climabill.example/api/companies/c-alpha/emissions/summary"
        no_options ] ->
  Scenario.record_request source_id
  ∈ Client.emitted
      (EmissionsTracker.handleCalculateEmissions Scenario.alpha Scenario.calculated
         Scenario.accepted Scenario.accepted) w.
Proof. intros ->. apply list_elem_of_further, list_elem_of_here. Qed.

Lemma record_source_is_first_top_source_witness :
  Scenario.record_request "src-1"
  ∈ Client.emitted
      (EmissionsTracker.handleCalculateEmissions Scenario.alpha Scenario.calculated
         Scenario.accepted Scenario.accepted) Scenario.with_source /\
  url (Scenario.record_request "src-1") = Spec.emissions_url Scenario.alpha /\
  method (Scenario.record_request "src-1") = "POST" /\
  exists b,
    body (Scenario.record_request "src-1") = Some b /\
    EmissionsTracker.prop b "source_id"
    = VStr (Spec.attributed_source_id (Tracker.emissionSources (tracker Scenario.with_source))).
Proof.
  assert (Hin : Scenario.record_request "src-1"
                ∈ Client.emitted
                    (EmissionsTracker.handleCalculateEmissions Scenario.alpha
                       Scenario.calculated Scenario.accepted Scenario.accepted)
                    Scenario.with_source).
  { apply record_request_emitted. vm_compute. reflexivity. }
  split; [exact Hin|]. split; [reflexivity|].
  exact (record_source_is_first_top_source (H := RefHost.host) Scenario.alpha
           Scenario.calculated Scenario.accepted Scenario.accepted Scenario.with_source
           (Scenario.record_request "src-1") Hin eq_refl).
Defined.

(** The first top source has no id: the record is attributed to
    ['default-source-id'], which is not that source's id, although the list
    is not empty. *)
Lemma record_source_of_unnamed_source :
  Tracker.emissionSources (tracker Scenario.with_unnamed_source)
  = [ {| Source.id := None |} ] /\
  Scenario.record_request "default-source-id"
  ∈ Client.emitted
      (EmissionsTracker.handleCalculateEmissions Scenario.alpha Scenario.calculated
         Scenario.accepted Scenario.accepted) Scenario.with_unnamed_source /\
  Spec.stated_source_id (Tracker.emissionSources (tracker Scenario.with_unnamed_source))
  = VUndefined /\
  ~ Spec.record_source_as_stated.
Proof.
  assert (Hin : Scenario.record_request "default-source-id"
                ∈ Client.emitted
                    (EmissionsTracker.handleCalculateEmissions Scenario.alpha
                       Scenario.calculated Scenario.accepted Scenario.accepted)
                    Scenario.with_unnamed_source).
  { apply record_request_emitted. vm_compute. reflexivity. }
  split; [vm_compute; reflexivity|]. split; [exact Hin|]. split; [vm_compute; reflexivity|].
  intros Hc. destruct (Hc _ _ _ _ _ _ Hin eq_refl) as (b & [= <-] & Hb).
  vm_compute in Hb. discriminate.
Qed.

Lemma login_stores_session_exactly_on_success_witness :
  Scenario.login_ok
  = Resolved {| status := 200;
                json_body := Some {| AuthData.access_token := Some "tok-alpha";
                                     AuthData.user := Some Scenario.admin;
                                     AuthData.tenant := Some Scenario.alpha_tenant;
                                     AuthData.company := None;
                                     AuthData.detail := None |} |} /\
  (let w' := Client.step (Client.LoginSubmit Scenario.login_ok) Scenario.typed in
   localStorage w' !! "climabill_token" = Some "tok-alpha" /\
   localStorage w' !! "climabill_user" = Some Scenario.admin /\
   localStorage w' !! "climabill_tenant" = Some Scenario.alpha_tenant /\
   AuthContext.isAuthenticated w' = true) /\
  (let w' := Client.step (Client.LoginSubmit Scenario.wrong_password) Scenario.typed in
   localStorage w' = localStorage Scenario.typed /\
   AuthContext.isAuthenticated w' = false /\
   AuthForm.error (authForm w') = "Invalid email or password").
Proof.
  split; [reflexivity|].
  pose proof (login_stores_session_exactly_on_success (H := RefHost.host)
                Scenario.login_ok Scenario.typed) as (_ & Hok & _ & _).
  pose proof (login_stores_session_exactly_on_success (H := RefHost.host)
                Scenario.wrong_password Scenario.typed) as (_ & _ & Hko & _).
  split.
  - destruct (Hok _ _ _ _ _ _ eq_refl eq_refl eq_refl) as (Ht & Hu & Hn & Hc & _).
    repeat split; try assumption; vm_compute; reflexivity.
  - destruct (Hko _ eq_refl eq_refl) as (Hs & Ha & He).
    repeat split; try assumption; vm_compute; reflexivity.
Defined.

Lemma signup_stores_session_exactly_on_success_witness :
  (let w' := Client.step (Client.SignupSubmit Scenario.register_ok) Scenario.signing_up in
   localStorage w' !! "climabill_token" = Some "tok-alpha" /\
   localStorage w' !! "climabill_user" = Some Scenario.admin /\
   localStorage w' !! "climabill_tenant" = Some Scenario.alpha_tenant /\
   localStorage w' !! "climabill_company_id" = Some "c-alpha" /\
   AuthCtx.token (authCtx w') = Some "tok-alpha" /\
   AppSt.currentCompany (app w') = Some Scenario.alpha) /\
  (let w' := Client.step (Client.SignupSubmit Scenario.wrong_password) Scenario.signing_up in
   localStorage w' = localStorage Scenario.signing_up).
Proof.
  pose proof (signup_stores_session_exactly_on_success (H := RefHost.host)
                Scenario.register_ok Scenario.signing_up) as (_ & Hok & _ & _).
  pose proof (signup_stores_session_exactly_on_success (H := RefHost.host)
                Scenario.wrong_password Scenario.signing_up) as (_ & _ & Hko & _).
  split.
  - destruct (Hok _ _ _ _ _ _ eq_refl eq_refl eq_refl)
      as (Ht & Hu & Hn & Hi & Hc & _ & _ & Hp).
    repeat split; assumption.
  - destruct (Hko _ eq_refl eq_refl) as (Hs & _). exact Hs.
Defined.

(** The body of the registration request for the form as filled in. *)
Example signup_request :
  Client.emitted
    (Client.handler (Client.SignupSubmit Scenario.register_ok) Scenario.signing_up)
    Scenario.signing_up
  = [ {| url := "https://climabill.example/api/auth/register";
         method := "POST";
         headers := {[ "Content-Type" := "application/json" ]};
         body := Some (VObj
           [ ("email", VStr "admin@alpha-tech.com");
             ("password", VStr "admin123");
             ("first_name", VStr "Ada");
             ("last_name", VStr "Admin");
             ("company_name", VStr "Alpha Tech Solutions");
             ("industry", VStr "saas");
             ("employee_count", VNum (of_Z 250));
             ("annual_revenue", VNum (div (of_Z 2500001) (of_Z 2)));
             ("headquarters_location", VStr "Berlin");
             ("compliance_standards", VArr [VStr "ghg_protocol"]) ]) |} ].
Proof. vm_compute. reflexivity. Qed.

Lemma cross_tenant_isolation_witness :
  Server.verify "s3cret" Scenario.mac 2000 Scenario.beta_token
  = Some {| Server.user_id := "u-2"; Server.tenant_id := "beta"; Server.expiry := 87400 |} /\
  "alpha" <> "beta" /\
  (let o := Server.handle "s3cret" Scenario.mac Server.Distinguish 2000
              {| Server.authorization := Some Scenario.beta_token;
                 Server.route := Server.Scoped (Some "alpha") Server.ListAll |}
              Scenario.database in
   Server.reply o = Server.Failed Server.Forbidden /\
   Server.invoked o = [] /\ Server.touched o = [] /\ Server.store o = Scenario.database) /\
  (let o := Server.handle "s3cret" Scenario.mac Server.Collapse 2000
              {| Server.authorization := Some Scenario.beta_token;
                 Server.route := Server.Scoped (Some "alpha")
                                   (Server.Create "e-3" "9 kg" (Some "alpha")) |}
              Scenario.database in
   Server.reply o = Server.Failed Server.NotFound /\
   Server.invoked o = [] /\ Server.touched o = [] /\ Server.store o = Scenario.database).
Proof.
  split; [reflexivity|]. split; [discriminate|]. split.
  - apply (cross_tenant_isolation "s3cret" Scenario.mac Server.Distinguish 2000
             Scenario.beta_token
             {| Server.user_id := "u-2"; Server.tenant_id := "beta"; Server.expiry := 87400 |}
             "alpha" Server.ListAll Scenario.database);
      [reflexivity | discriminate].
  - apply (cross_tenant_isolation "s3cret" Scenario.mac Server.Collapse 2000
             Scenario.beta_token
             {| Server.user_id := "u-2"; Server.tenant_id := "beta"; Server.expiry := 87400 |}
             "alpha" (Server.Create "e-3" "9 kg" (Some "alpha"))
             Scenario.database);
      [reflexivity | discriminate].
Defined.

(** C2. Signed in, with the token in [localStorage] and in the provider,
    the list of companies was asked for with [Authorization: Bearer
    tok-alpha]; the calls of the dashboard, the emissions tracker, the
    initiatives, the marketplace and the suppliers are sent and none of them
    carries an [Authorization] header. *)
Theorem view_calls_carry_no_bearer_token :
  let w := Scenario.signed_in in
  let sent ev := Client.emitted (Client.handler ev w) w in
  let anonymous req := headers req !! "Authorization" = None in
  localStorage w !! "climabill_token" = Some "tok-alpha" /\
  AuthCtx.token (authCtx w) = Some "tok-alpha" /\
  Client.screen w = Client.Main Scenario.alpha /\
  (exists req, last (requests w) = Some req /\
               url req = "https://climabill.example/api/companies" /\
               headers req !! "Authorization" = Some "Bearer tok-alpha") /\
  (sent (Client.DashboardLoad Scenario.accepted)
   = [ {| url := "https://climabill.example/api/companies/c-alpha/dashboard";
          method := "GET"; headers := ∅; body := None |} ]) /\
  (sent (Client.CalculateEmissions Scenario.calculated Scenario.accepted Scenario.accepted)
   <> [] /\
   Forall anonymous
     (sent (Client.CalculateEmissions Scenario.calculated Scenario.accepted
              Scenario.accepted))) /\
  (sent (Client.InitiativesLoad (Scenario.respond 200 []))
   = [ {| url := "https://climabill.example/api/companies/c-alpha/initiatives";
          method := "GET"; headers := ∅; body := None |} ]) /\
  (sent (Client.Purchase "listing-7" (of_Z 3)
           (Scenario.respond 200 {| CarbonMarketplace.total_cost := Some (of_Z 45);
                                    CarbonMarketplace.detail := None |})
           Scenario.accepted) <> [] /\
   Forall anonymous
     (sent (Client.Purchase "listing-7" (of_Z 3)
              (Scenario.respond 200 {| CarbonMarketplace.total_cost := Some (of_Z 45);
                                       CarbonMarketplace.detail := None |})
              Scenario.accepted))) /\
  (sent (Client.SuppliersLoad Scenario.accepted)
   = [ {| url := "https://climabill.example/api/companies/c-alpha/suppliers";
          method := "GET"; headers := ∅; body := None |} ]).
Proof.
  cbv zeta.
  split; [vm_compute; reflexivity|]. split; [vm_compute; reflexivity|].
  split; [vm_compute; reflexivity|].
  split.
  { eexists. split; [vm_compute; reflexivity|]. split; vm_compute; reflexivity. }
  split; [vm_compute; reflexivity|].
  split.
  { split; [vm_compute; discriminate|]. vm_compute. repeat constructor. }
  split; [vm_compute; reflexivity|].
  split.
  { split; [vm_compute; discriminate|]. vm_compute. repeat constructor. }
  vm_compute. reflexivity.
Qed.

End OnTheReferenceHost.
